(** * Disease-aware nutrition advisor: a shallow embedding

    The development embeds [app/tools/health_advisor.py] (class
    [HealthAdvisorTool]) and the normalizer of
    [app/tools/health_advisor_simple.py], and proves the properties the
    specification states about disease normalization, safety scoring and
    advice composition.

    Layout: [Py] models the fragment of Python the two files use (strings
    as code-point sequences, dynamically typed values, dictionaries,
    truthiness, comparisons that may raise); [health_advisor] and
    [health_advisor_simple] embed the source functions under their own
    names; the theorems follow. *)


From Stdlib Require Import QArith Qcanon.
From stdpp Require Import gmap list numbers strings.

#[local] Set Warnings "-register-all".

(** ** The Python fragment *)

Module Py.

(** A Python [str] is a sequence of Unicode code points. *)
Definition pystr := list N.

(** String literals of the source are written [u "..."]: the UTF-8 bytes
    of the literal are decoded into code points. *)
Fixpoint utf8_decode (bs : list N) : pystr :=
  match bs with
  | [] => []
  | b0 :: r0 =>
      if (b0 <? 128)%N then b0 :: utf8_decode r0
      else if (b0 <? 224)%N then
        match r0 with
        | b1 :: r1 => ((b0 - 192) * 64 + (b1 - 128))%N :: utf8_decode r1
        | _ => []
        end
      else if (b0 <? 240)%N then
        match r0 with
        | b1 :: b2 :: r2 =>
            ((b0 - 224) * 4096 + (b1 - 128) * 64 + (b2 - 128))%N
              :: utf8_decode r2
        | _ => []
        end
      else
        match r0 with
        | b1 :: b2 :: b3 :: r3 =>
            ((b0 - 240) * 262144 + (b1 - 128) * 4096
             + (b2 - 128) * 64 + (b3 - 128))%N :: utf8_decode r3
        | _ => []
        end
  end.

Definition u (s : string) : pystr :=
  utf8_decode (map Byte.to_N (String.list_byte_of_string s)).
Arguments u s%_string.

(** [str.isspace] on one code point: the characters [str.strip()]
    removes when called without argument. *)
Definition isspace (c : N) : bool :=
  ((9 <=? c) && (c <=? 13) || (28 <=? c) && (c <=? 32)
   || (c =? 133) || (c =? 160) || (c =? 5760)
   || (8192 <=? c) && (c <=? 8202)
   || (c =? 8232) || (c =? 8233) || (c =? 8239) || (c =? 8287)
   || (c =? 12288))%N.

Fixpoint lstrip (s : pystr) : pystr :=
  match s with
  | [] => []
  | c :: r => if isspace c then lstrip r else s
  end.

Definition rstrip (s : pystr) : pystr := reverse (lstrip (reverse s)).

(** [s.strip()] *)
Definition strip (s : pystr) : pystr := rstrip (lstrip s).

(** [str.lower] on one code point.  The case mapping is modelled on the
    blocks Vietnamese and English text uses: Basic Latin, Latin-1
    Supplement, Latin Extended-A, the letters O-horn and U-horn, and the
    Vietnamese range of Latin Extended Additional (U+1EA0 to U+1EFF).
    Code points of other scripts are left unchanged.  U+0130 lowers to
    two code points, as in Python. *)
Definition lower_cp (c : N) : list N :=
  if ((65 <=? c) && (c <=? 90))%N then [(c + 32)%N]
  else if ((192 <=? c) && (c <=? 222) && negb (c =? 215))%N then [(c + 32)%N]
  else if (c =? 304)%N then [105%N; 775%N]
  else if (((256 <=? c) && (c <=? 311) || (330 <=? c) && (c <=? 375))
           && N.even c)%N then [(c + 1)%N]
  else if (((313 <=? c) && (c <=? 328) || (377 <=? c) && (c <=? 382))
           && N.odd c)%N then [(c + 1)%N]
  else if (c =? 376)%N then [255%N]
  else if ((c =? 416) || (c =? 431))%N then [(c + 1)%N]
  else if ((7840 <=? c) && (c <=? 7935) && N.even c)%N then [(c + 1)%N]
  else [c].

(** [s.lower()] *)
Definition lower (s : pystr) : pystr := flat_map lower_cp s.

Fixpoint startswith (p s : pystr) : bool :=
  match p, s with
  | [], _ => true
  | _ :: _, [] => false
  | a :: p', b :: s' => (a =? b)%N && startswith p' s'
  end.

(** [needle in hay] on strings: substring test. *)
Fixpoint contains (needle hay : pystr) : bool :=
  startswith needle hay
  || match hay with
     | [] => false
     | _ :: r => contains needle r
     end.

(** Dynamically typed values.  An [int] is a [Z]; a finite [float] is the
    rational it denotes (Python compares ints and floats by exact value,
    so the comparisons of the source are comparisons of rationals). *)
Inductive pyval :=
  | PNone
  | PBool (b : bool)
  | PInt (z : Z)
  | PFloat (q : Qc)
  | PStr (s : pystr)
  | PList (l : list pyval)
  | PDict (d : gmap pystr pyval).

(** A dictionary literal [{k1: v1, ...}]. *)
Definition dict_literal {V} (l : list (pystr * V)) : gmap pystr V :=
  list_to_map l.

Fixpoint assoc {V} (k : pystr) (l : list (pystr * V)) : option V :=
  match l with
  | [] => None
  | (k', v) :: r => if bool_decide (k' = k) then Some v else assoc k r
  end.

(** Truth value of an object, as tested by [if], [not], [and], [or]. *)
Definition truthy (v : pyval) : bool :=
  match v with
  | PNone => false
  | PBool b => b
  | PInt z => negb (z =? 0)%Z
  | PFloat q => negb (bool_decide (q = Qc_of_Z 0))
  | PStr s => negb (bool_decide (s = []))
  | PList l => negb (Nat.eqb (length l) 0)
  | PDict d => negb (Nat.eqb (size d) 0)
  end.

(** Truth value of an [Optional[dict]]. *)
Definition truthy_dict (o : option (gmap pystr pyval)) : bool :=
  match o with
  | Some d => truthy (PDict d)
  | None => false
  end.

(** [a or b] *)
Definition py_or (a b : pyval) : pyval := if truthy a then a else b.

(** [d.get(k, dflt)] and [d.get(k)] *)
Definition dict_get (d : gmap pystr pyval) (k : pystr) (dflt : pyval) : pyval :=
  default dflt (d !! k).

(** A call either returns a value or lets an exception propagate. *)
Inductive outcome (A : Type) :=
  | Returns (a : A)
  | Raises.
Arguments Returns {A} a.
Arguments Raises {A}.

#[global] Instance outcome_ret : MRet outcome := @Returns.
#[global] Instance outcome_bind : MBind outcome :=
  λ A B f m, match m with Returns a => f a | Raises => Raises end.

(** The number a value stands for in an ordering comparison with an
    [int]; [bool] is a subtype of [int]; other types raise [TypeError]. *)
Definition as_number (v : pyval) : option Qc :=
  match v with
  | PBool b => Some (Qc_of_Z (if b then 1 else 0))
  | PInt z => Some (Qc_of_Z z)
  | PFloat q => Some q
  | _ => None
  end.

(** [v <= n], [v >= n], [v > n] for an integer literal [n]. *)
Definition py_le (v : pyval) (n : Z) : outcome bool :=
  match as_number v with
  | Some q => Returns (bool_decide (q ≤ Qc_of_Z n)%Qc)
  | None => Raises
  end.

Definition py_ge (v : pyval) (n : Z) : outcome bool :=
  match as_number v with
  | Some q => Returns (bool_decide (Qc_of_Z n ≤ q)%Qc)
  | None => Raises
  end.

Definition py_gt (v : pyval) (n : Z) : outcome bool :=
  match as_number v with
  | Some q => Returns (bool_decide (Qc_of_Z n < q)%Qc)
  | None => Raises
  end.

(** [len(v)] *)
Definition py_len (v : pyval) : outcome nat :=
  match v with
  | PStr s => Returns (length s)
  | PList l => Returns (length l)
  | PDict d => Returns (size d)
  | _ => Raises
  end.

(** [v[:n]]: defined on sequences; a dict or a number raises. *)
Definition py_slice_to (n : nat) (v : pyval) : outcome pyval :=
  match v with
  | PStr s => Returns (PStr (take n s))
  | PList l => Returns (PList (take n l))
  | _ => Raises
  end.

(** [v + s] for a string literal [s]. *)
Definition py_add_str (v : pyval) (s : pystr) : outcome pyval :=
  match v with
  | PStr a => Returns (PStr (a ++ s))
  | _ => Raises
  end.

(** Decimal digits of an [int], as [str(z)] prints them. *)
Fixpoint digits_fuel (fuel : nat) (n : N) (acc : pystr) : pystr :=
  match fuel with
  | O => acc
  | S fuel' =>
      let acc' := (48 + n mod 10)%N :: acc in
      if (n <? 10)%N then acc' else digits_fuel fuel' (n / 10)%N acc'
  end.

Definition str_of_int (z : Z) : pystr :=
  let n := Z.to_N (Z.abs z) in
  let ds := digits_fuel (S (N.to_nat (N.log2 n))) n [] in
  if (z <? 0)%Z then 45%N :: ds else ds.

End Py.

Import Py.

(** ** Collaborators

    [DatabaseHelpers] (app/utils/database_helpers.py) reads the food and
    disease tables of the database.  The advisor only consumes its answers,
    so the three static methods it calls are taken as an interface; an
    instance is one state of the database. *)
Class DatabaseHelpers := {
  get_food_nutrition : pystr → option (gmap pystr pyval);
  get_disease_rules : pystr → option (gmap pystr pyval);
  get_suitable_foods_for_disease : pystr → Z → list (gmap pystr pyval);
}.

(** Rendering of floats and containers inside an f-string is left to the
    Python runtime. *)
Class Formatter := {
  format_other : pyval → pystr;
}.

(** [f"{v}"] *)
Definition py_format `{Formatter} (v : pyval) : pystr :=
  match v with
  | PNone => u "None"
  | PBool b => if b then u "True" else u "False"
  | PInt z => str_of_int z
  | PStr s => s
  | _ => format_other v
  end.

(** ** app/tools/health_advisor.py *)

Module health_advisor.
Section HealthAdvisorTool.
Context `{DatabaseHelpers} `{Formatter}.
#[local] Open Scope Z_scope.

Definition DISEASE_MAP_items : list (pystr * pystr) := [
  (u "tiểu đường", u "Tiểu đường");
  (u "đái tháo đường", u "Tiểu đường");
  (u "đường huyết cao", u "Tiểu đường");
  (u "diabetes", u "Tiểu đường");
  (u "béo", u "Béo phì");
  (u "béo phì", u "Béo phì");
  (u "thừa cân", u "Béo phì");
  (u "obesity", u "Béo phì");
  (u "huyết áp", u "Huyết áp cao");
  (u "tăng huyết áp", u "Huyết áp cao");
  (u "cao huyết áp", u "Huyết áp cao");
  (u "huyết áp cao", u "Huyết áp cao");
  (u "hypertension", u "Huyết áp cao")
].

Definition DISEASE_MAP : gmap pystr pystr := dict_literal DISEASE_MAP_items.

Definition _normalize_disease_name (disease : pystr) : option pystr :=
  DISEASE_MAP !! lower (strip disease).

Definition _create_error_response (disease : pystr) : gmap pystr pyval :=
  dict_literal [
    (u "lỗi", PStr (u "Hiện tại chỉ hỗ trợ 3 bệnh: Tiểu đường, Béo phì, Huyết áp cao"));
    (u "bạn_nhập", PStr disease);
    (u "gợi_ý", PStr (u "Hãy nhập: 'tiểu đường', 'béo phì', hoặc 'huyết áp cao'"))
  ].

Definition _get_critical_nutrients (disease : pystr) : list pystr :=
  if bool_decide (disease = u "Tiểu đường") then
    [u "Đường"; u "Tinh bột tinh chế"; u "Cơm trắng"; u "Nước ngọt"; u "Bánh kẹo"]
  else if bool_decide (disease = u "Béo phì") then
    [u "Chất béo bão hòa"; u "Đồ chiên rán"; u "Đồ ăn nhanh"; u "Nước ngọt có gas"; u "Bơ thực vật"]
  else if bool_decide (disease = u "Huyết áp cao") then
    [u "Muối"; u "Mắm"; u "Thịt hun khói"; u "Đồ hộp"; u "Nước mắm công nghiệp"]
  else [].

Definition _get_disease_advice (disease : pystr) : pystr :=
  if bool_decide (disease = u "Tiểu đường") then
    u "Ăn ít đường, nhiều chất xơ. Chia nhỏ bữa ăn. Kiểm tra đường huyết thường xuyên."
  else if bool_decide (disease = u "Béo phì") then
    u "Giảm calo, tăng vận động. Ăn nhiều rau, ít chất béo. Uống nhiều nước."
  else if bool_decide (disease = u "Huyết áp cao") then
    u "Hạn chế muối, tăng kali. Ăn nhiều rau quả. Tránh căng thẳng."
  else u "Tham khảo ý kiến bác sĩ chuyên khoa.".

Definition _get_restricted_foods (disease : pystr) : list pystr :=
  if bool_decide (disease = u "Tiểu đường") then
    [u "Bánh ngọt"; u "Nước ngọt"; u "Cơm trắng"; u "Bánh mì trắng"; u "Kẹo"; u "Mật ong"; u "Trái cây ngọt"]
  else if bool_decide (disease = u "Béo phì") then
    [u "Đồ chiên"; u "Bánh kẹo"; u "Nước ngọt"; u "Thức ăn nhanh"; u "Kem"; u "Bánh quy"; u "Đồ uống có cồn"]
  else if bool_decide (disease = u "Huyết áp cao") then
    [u "Muối ăn"; u "Nước mắm"; u "Tương ớt"; u "Thịt hun khói"; u "Đồ hộp"; u "Mì gói"; u "Bánh tráng nướng"]
  else [].

Definition _get_recommended_foods (disease : pystr) : list pystr :=
  if bool_decide (disease = u "Tiểu đường") then
    [u "Rau xanh"; u "Cá"; u "Trứng"; u "Yến mạch"; u "Đậu"; u "Quả bơ"; u "Hạt óc chó"]
  else if bool_decide (disease = u "Béo phì") then
    [u "Rau củ"; u "Trái cây ít đường"; u "Cá"; u "Ức gà"; u "Đậu"; u "Yến mạch"; u "Nước lọc"]
  else if bool_decide (disease = u "Huyết áp cao") then
    [u "Chuối"; u "Rau bina"; u "Cá hồi"; u "Yến mạch"; u "Đậu đen"; u "Hạt lanh"; u "Trà xanh"]
  else [].

Definition _get_max_calories_per_meal (disease : pystr) : Z :=
  if bool_decide (disease = u "Tiểu đường") then 500
  else if bool_decide (disease = u "Béo phì") then 400
  else if bool_decide (disease = u "Huyết áp cao") then 600
  else 500.

(** [guidelines[:300] + "..." if len(guidelines) > 300 else guidelines] *)
Definition truncate_guidelines (guidelines : pyval) : outcome pyval :=
  n ← py_len guidelines;
  if (300 <? n)%nat then
    head ← py_slice_to 300 guidelines;
    py_add_str head (u "...")
  else Returns guidelines.

Definition _get_general_health_advice (disease : pystr)
  : outcome (gmap pystr pyval) :=
  let disease_rules := get_disease_rules disease in
  let suitable_foods := get_suitable_foods_for_disease disease 5 in
  let result := dict_literal [
    (u "bệnh", PStr disease);
    (u "cảnh_báo_nặng_nhất", PList (PStr <$> _get_critical_nutrients disease));
    (u "lời_khuyên_ngắn_gọn", PStr (_get_disease_advice disease));
    (u "hạn_chế_nghiêm_ngặt", PList (PStr <$> _get_restricted_foods disease));
    (u "nên_ăn_nhiều", PList (PStr <$> _get_recommended_foods disease));
    (u "calo_tối_đa_mỗi_bữa", PInt (_get_max_calories_per_meal disease));
    (u "thực_phẩm_an_toàn_hôm_nay", PList (PDict <$> suitable_foods))
  ] in
  match disease_rules with
  | Some rules =>
      if truthy (PDict rules) then
        result ←
          (if truthy (dict_get rules (u "guidelines") PNone) then
             v ← truncate_guidelines (dict_get rules (u "guidelines") PNone);
             Returns (<[u "hướng_dẫn_chi_tiết" := v]> result)
           else Returns result);
        result ←
          (if truthy (dict_get rules (u "foods_to_avoid") PNone) then
             v ← py_slice_to 5 (dict_get rules (u "foods_to_avoid") PNone);
             Returns (<[u "tránh_hoàn_toàn" := v]> result)
           else Returns result);
        result ←
          (if truthy (dict_get rules (u "recommended_foods") PNone) then
             v ← py_slice_to 5 (dict_get rules (u "recommended_foods") PNone);
             Returns (<[u "khuyến_khích" := v]> result)
           else Returns result);
        Returns
          (if truthy (dict_get rules (u "max_daily_calories") PNone) then
             <[u "giới_hạn_calo_ngày" :=
                 dict_get rules (u "max_daily_calories") PNone]> result
           else result)
      else Returns result
  | None => Returns result
  end.

(** [nutrition.get(key, 0) or 0] *)
Definition get_or_zero (nutrition : gmap pystr pyval) (key : pystr) : pyval :=
  py_or (dict_get nutrition key (PInt 0)) (PInt 0).

(** [nutrition.get("category") in ["rau", "trái cây", "cá"]] *)
Definition category_in_low_sodium_list (nutrition : gmap pystr pyval) : bool :=
  match dict_get nutrition (u "category") PNone with
  | PStr c =>
      bool_decide (c = u "rau") || bool_decide (c = u "trái cây")
      || bool_decide (c = u "cá")
  | _ => false
  end.

Definition _calculate_safety_score (nutrition : gmap pystr pyval)
    (disease : pystr) : outcome Z :=
  let score : Z := 50 in
  let calories := get_or_zero nutrition (u "calories") in
  let carbs := get_or_zero nutrition (u "carbs") in
  let fat := get_or_zero nutrition (u "fat") in
  let protein := get_or_zero nutrition (u "protein") in
  score ←
    (if bool_decide (disease = u "Tiểu đường") then
       c30 ← py_le carbs 30;
       score ←
         (if (c30 : bool) then Returns (score + 20)
          else
            c50 ← py_le carbs 50;
            Returns (if (c50 : bool) then score + 10 else score - 20));
       p15 ← py_ge protein 15;
       let score := if (p15 : bool) then score + 15 else score in
       k400 ← py_le calories 400;
       Returns (if (k400 : bool) then score + 15 else score)
     else if bool_decide (disease = u "Béo phì") then
       k200 ← py_le calories 200;
       score ←
         (if (k200 : bool) then Returns (score + 25)
          else
            k400 ← py_le calories 400;
            Returns (if (k400 : bool) then score + 10 else score - 25));
       f10 ← py_le fat 10;
       if (f10 : bool) then Returns (score + 15)
       else
         f20 ← py_le fat 20;
         Returns (if (f20 : bool) then score + 5 else score - 15)
     else if bool_decide (disease = u "Huyết áp cao") then
       k300 ← py_le calories 300;
       let score := if (k300 : bool) then score + 15 else score in
       p10 ← py_ge protein 10;
       let score := if (p10 : bool) then score + 10 else score in
       Returns
         (if category_in_low_sodium_list nutrition then score + 20 else score)
     else Returns score);
  Returns (Z.max 0 (Z.min 100 score)).

Definition _analyze_nutrients_for_disease (nutrition : gmap pystr pyval)
    (disease : pystr) : outcome (gmap pystr pyval) :=
  let analysis : gmap pystr pyval := ∅ in
  let calories := get_or_zero nutrition (u "calories") in
  let carbs := get_or_zero nutrition (u "carbs") in
  let fat := get_or_zero nutrition (u "fat") in
  let protein := get_or_zero nutrition (u "protein") in
  if bool_decide (disease = u "Tiểu đường") then
    c30 ← py_le carbs 30;
    status ←
      (if (c30 : bool) then Returns (u "AN TOÀN")
       else
         c50 ← py_le carbs 50;
         Returns (if (c50 : bool) then u "CHẤP NHẬN ĐƯỢC" else u "NGUY HIỂM"));
    Returns (<[u "carbohydrate" := PDict (dict_literal [
      (u "giá_trị", PStr (py_format carbs ++ u "g"));
      (u "giới_hạn", PStr (u "< 50g/bữa"));
      (u "trạng_thái", PStr status);
      (u "lý_do", PStr (u "Carbs cao làm tăng đường huyết"))
    ])]> analysis)
  else if bool_decide (disease = u "Béo phì") then
    k200 ← py_le calories 200;
    status ←
      (if (k200 : bool) then Returns (u "ÍT CALO")
       else
         k400 ← py_le calories 400;
         Returns (if (k400 : bool) then u "TRUNG BÌNH" else u "NHIỀU CALO"));
    Returns (<[u "calo" := PDict (dict_literal [
      (u "giá_trị", PStr (py_format calories ++ u " kcal"));
      (u "trạng_thái", PStr status);
      (u "lý_do", PStr (u "Calo cao dẫn đến tăng cân"))
    ])]> analysis)
  else if bool_decide (disease = u "Huyết áp cao") then
    Returns (<[u "tổng_quan" := PDict (dict_literal [
      (u "giá_trị",
        PStr (py_format calories ++ u " kcal, " ++ py_format protein
              ++ u "g protein"));
      (u "trạng_thái", PStr (u "CẦN KIỂM TRA MUỐI"));
      (u "lý_do", PStr (u "Cần tránh muối và thực phẩm chế biến sẵn"))
    ])]> analysis)
  else Returns analysis.

Definition _get_adjustment_suggestions (nutrition : gmap pystr pyval)
    (disease : pystr) : outcome (list pystr) :=
  let suggestions : list pystr := [] in
  let calories := get_or_zero nutrition (u "calories") in
  let carbs := get_or_zero nutrition (u "carbs") in
  if bool_decide (disease = u "Tiểu đường") then
    c45 ← py_gt carbs 45;
    let suggestions :=
      if (c45 : bool) then
        suggestions ++ [u "Giảm khẩu phần xuống 1/2";
                        u "Ăn kèm rau xanh để tăng chất xơ"]
      else suggestions in
    Returns (suggestions ++ [u "Thay cơm trắng bằng gạo lứt nếu có"])
  else if bool_decide (disease = u "Béo phì") then
    k400 ← py_gt calories 400;
    let suggestions :=
      if (k400 : bool) then
        suggestions ++ [u "Giảm khẩu phần xuống 2/3";
                        u "Tăng rau xanh, giảm carbs"]
      else suggestions in
    Returns (suggestions ++ [u "Chọn phương pháp nấu hấp, luộc thay vì chiên"])
  else if bool_decide (disease = u "Huyết áp cao") then
    Returns (suggestions ++ [u "Yêu cầu nấu ít muối hoặc không muối";
                             u "Không thêm nước mắm, tương ớt";
                             u "Ăn kèm chuối hoặc rau giàu kali"])
  else Returns suggestions.

(** The hard-coded table of [_get_fallback_nutrition]; the floats 2.7 and
    0.3 are written as the exact rationals of their doubles. *)
Definition food_db : list (pystr * gmap pystr pyval) := [
  (u "phở bò", dict_literal [
    (u "calories", PInt 450); (u "protein", PInt 30); (u "carbs", PInt 45);
    (u "fat", PInt 15); (u "category", PStr (u "phở"))]);
  (u "cơm trắng", dict_literal [
    (u "calories", PInt 130);
    (u "protein", PFloat (Q2Qc (3039929748475085 # 1125899906842624)));
    (u "carbs", PInt 28);
    (u "fat", PFloat (Q2Qc (5404319552844595 # 18014398509481984)));
    (u "category", PStr (u "cơm"))]);
  (u "bánh mì", dict_literal [
    (u "calories", PInt 400); (u "protein", PInt 15); (u "carbs", PInt 50);
    (u "fat", PInt 18); (u "category", PStr (u "bánh"))]);
  (u "gỏi cuốn", dict_literal [
    (u "calories", PInt 60); (u "protein", PInt 5); (u "carbs", PInt 8);
    (u "fat", PInt 2); (u "category", PStr (u "gỏi"))]);
  (u "cơm tấm", dict_literal [
    (u "calories", PInt 650); (u "protein", PInt 35); (u "carbs", PInt 70);
    (u "fat", PInt 22); (u "category", PStr (u "cơm"))]);
  (u "bún bò huế", dict_literal [
    (u "calories", PInt 550); (u "protein", PInt 28); (u "carbs", PInt 55);
    (u "fat", PInt 20); (u "category", PStr (u "bún"))]);
  (u "bánh xèo", dict_literal [
    (u "calories", PInt 350); (u "protein", PInt 12); (u "carbs", PInt 40);
    (u "fat", PInt 16); (u "category", PStr (u "bánh"))]);
  (u "cháo gà", dict_literal [
    (u "calories", PInt 280); (u "protein", PInt 20); (u "carbs", PInt 35);
    (u "fat", PInt 8); (u "category", PStr (u "cháo"))])
].

(** The loop of [_get_fallback_nutrition]: the first entry, in insertion
    order, whose key contains the name or is contained in it. *)
Fixpoint fuzzy_match (food_name_lower : pystr)
    (items : list (pystr * gmap pystr pyval)) : option (gmap pystr pyval) :=
  match items with
  | [] => None
  | (key, data) :: rest =>
      if contains food_name_lower key || contains key food_name_lower
      then Some data
      else fuzzy_match food_name_lower rest
  end.

Definition _get_fallback_nutrition (food_name : pystr)
  : option (gmap pystr pyval) :=
  let food_name_lower := lower food_name in
  fuzzy_match food_name_lower food_db.

Definition _analyze_food_for_disease (disease food_name portion_size : pystr)
  : outcome (gmap pystr pyval) :=
  let nutrition_info := get_food_nutrition food_name in
  let nutrition_info :=
    if negb (truthy_dict nutrition_info)
    then _get_fallback_nutrition food_name
    else nutrition_info in
  match nutrition_info with
  | Some nutrition =>
      if negb (truthy (PDict nutrition)) then
        Returns (dict_literal [
          (u "lỗi", PStr (u "Không tìm thấy thông tin dinh dưỡng cho '"
                          ++ food_name ++ u "'"));
          (u "gợi_ý", PStr (u "Thử với tên món ăn khác như: phở bò, cơm tấm, bánh mì, gỏi cuốn"))
        ])
      else
        let analysis_result := dict_literal [
          (u "thông_tin_món_ăn", PDict (dict_literal [
            (u "tên", PStr food_name);
            (u "khẩu_phần", PStr portion_size);
            (u "dinh_dưỡng_chi_tiết", PDict nutrition)]));
          (u "phân_tích_cho_bệnh", PStr disease);
          (u "đánh_giá_từng_chất", PDict (dict_literal []));
          (u "mức_độ_an_toàn", PStr []);
          (u "điểm_số", PInt 0);
          (u "lời_khuyên_cụ_thể", PList []);
          (u "cách_điều_chỉnh", PList [])
        ] in
        score ← _calculate_safety_score nutrition disease;
        let analysis_result := <[u "điểm_số" := PInt score]> analysis_result in
        let analysis_result :=
          if (80 <=? score)%Z then
            <[u "lời_khuyên_cụ_thể" :=
                PList [PStr (u "Món ăn này rất phù hợp với bệnh lý của bạn")]]>
              (<[u "mức_độ_an_toàn" := PStr (u "RẤT AN TOÀN ✅")]> analysis_result)
          else if (60 <=? score)%Z then
            <[u "lời_khuyên_cụ_thể" :=
                PList [PStr (u "Có thể ăn nhưng cần hạn chế khẩu phần")]]>
              (<[u "mức_độ_an_toàn" := PStr (u "CHẤP NHẬN ĐƯỢC ⚠️")]> analysis_result)
          else
            <[u "lời_khuyên_cụ_thể" :=
                PList [PStr (u "Nên tránh món ăn này")]]>
              (<[u "mức_độ_an_toàn" := PStr (u "KHÔNG NÊN ĂN ❌")]> analysis_result) in
        breakdown ← _analyze_nutrients_for_disease nutrition disease;
        let analysis_result :=
          <[u "đánh_giá_từng_chất" := PDict breakdown]> analysis_result in
        suggestions ← _get_adjustment_suggestions nutrition disease;
        Returns (<[u "cách_điều_chỉnh" := PList (PStr <$> suggestions)]>
                   analysis_result)
  | None =>
      Returns (dict_literal [
        (u "lỗi", PStr (u "Không tìm thấy thông tin dinh dưỡng cho '"
                        ++ food_name ++ u "'"));
        (u "gợi_ý", PStr (u "Thử với tên món ăn khác như: phở bò, cơm tấm, bánh mì, gỏi cuốn"))
      ])
  end.

(** [food_name and food_name.strip()] as a condition. *)
Definition food_name_given (food_name : option pystr) : bool :=
  match food_name with
  | Some s => truthy (PStr s) && truthy (PStr (strip s))
  | None => false
  end.

Definition _run (disease : pystr) (food_name : option pystr)
    (portion_size : pystr) : outcome (gmap pystr pyval) :=
  match _normalize_disease_name disease with
  | Some standardized_disease =>
      if negb (truthy (PStr standardized_disease)) then
        Returns (_create_error_response disease)
      else if food_name_given food_name then
        _analyze_food_for_disease standardized_disease
          (default [] food_name) portion_size
      else _get_general_health_advice standardized_disease
  | None => Returns (_create_error_response disease)
  end.

End HealthAdvisorTool.
End health_advisor.

(** ** app/tools/health_advisor_simple.py (the normalizer) *)

Module health_advisor_simple.

Definition DISEASE_MAP_items : list (pystr * pystr) := [
  (u "tiểu đường", u "Tiểu đường");
  (u "đái tháo đường", u "Tiểu đường");
  (u "diabetes", u "Tiểu đường");
  (u "béo phì", u "Béo phì");
  (u "thừa cân", u "Béo phì");
  (u "obesity", u "Béo phì");
  (u "cao huyết áp", u "Huyết áp cao");
  (u "huyết áp cao", u "Huyết áp cao");
  (u "hypertension", u "Huyết áp cao");
  (u "tim mạch", u "Bệnh tim mạch");
  (u "bệnh tim", u "Bệnh tim mạch")
].

Definition DISEASE_MAP : gmap pystr pystr := dict_literal DISEASE_MAP_items.

Definition _normalize_disease_name (disease : pystr) : option pystr :=
  let disease_lower := strip (lower disease) in
  DISEASE_MAP !! disease_lower.

Definition _create_error_response (disease : pystr) : gmap pystr pyval :=
  dict_literal [
    (u "lỗi", PStr (u "Không nhận diện được bệnh lý: " ++ disease));
    (u "gợi_ý", PStr (u "Các bệnh lý được hỗ trợ: tiểu đường, béo phì, cao huyết áp, bệnh tim mạch"));
    (u "hướng_dẫn", PStr (u "Vui lòng nhập tên bệnh chính xác hoặc liên hệ bác sĩ chuyên khoa"))
  ].

Definition advice_entry (principle : pystr) (eat avoid : list pystr)
    (note : pystr) : gmap pystr pyval :=
  dict_literal [
    (u "nguyên_tắc_chính", PStr principle);
    (u "nên_ăn", PList (PStr <$> eat));
    (u "tránh_ăn", PList (PStr <$> avoid));
    (u "lưu_ý", PStr note)].

Definition advice_map : gmap pystr (gmap pystr pyval) := dict_literal [
  (u "Tiểu đường", advice_entry
    (u "Kiểm soát đường huyết, hạn chế carbohydrate đơn giản")
    [u "Rau xanh (rau muống, cải xanh, bông cải xanh)";
     u "Protein nạc (ức gà, cá, đậu hũ)";
     u "Ngũ cốc nguyên hạt (gạo lứt, yến mạch)";
     u "Các loại đậu (đậu đen, đậu xanh)"]
    [u "Đường trắng, bánh ngọt, kẹo";
     u "Nước ngọt có ga, nước trái cây đóng hộp";
     u "Cơm trắng, bánh mì trắng";
     u "Trái cây nhiều đường (xoài chín, mít)"]
    (u "Ăn nhiều bữa nhỏ, kiểm soát portion size, tập thể dục đều đặn"));
  (u "Béo phì", advice_entry
    (u "Giảm calo, tăng cường hoạt động thể chất")
    [u "Rau củ quả tươi";
     u "Protein nạc (cá, ức gà không da)";
     u "Ngũ cốc nguyên hạt";
     u "Sữa ít béo"]
    [u "Đồ chiên rán, fast food";
     u "Đồ uống có đường";
     u "Bánh kẹo, snack";
     u "Thịt béo, da động vật"]
    (u "Giảm 0.5-1kg/tuần là an toàn, uống nhiều nước, ngủ đủ giấc"));
  (u "Huyết áp cao", advice_entry
    (u "Giảm natrium, tăng kali, kiểm soát cân nặng")
    [u "Rau xanh giàu kali (rau bina, cần tây)";
     u "Trái cây (chuối, cam, táo)";
     u "Cá giàu omega-3 (cá hồi, cá thu)";
     u "Hạt không muối (hạnh nhân, óc chó)"]
    [u "Muối ăn, mắm tôm, nước mắm";
     u "Đồ hộp, đồ ăn sẵn";
     u "Thịt hun khói, xúc xích";
     u "Phô mai, bánh mì mặn"]
    (u "Hạn chế muối dưới 5g/ngày, tập thể dục nhẹ nhàng, giảm stress"));
  (u "Bệnh tim mạch", advice_entry
    (u "Giảm cholesterol xấu, tăng omega-3, kiểm soát cân nặng")
    [u "Cá béo (cá hồi, cá thu, cá trích)";
     u "Dầu olive, dầu canola";
     u "Hạt và quả khô";
     u "Yến mạch, đậu"]
    [u "Thịt đỏ nhiều mỡ";
     u "Đồ chiên rán";
     u "Bơ, kem, phô mai béo";
     u "Đồ ngọt, bánh kem"]
    (u "Tập aerobic đều đặn, không hút thuốc, hạn chế rượu bia"))
].

Definition _get_general_advice (disease : pystr) : gmap pystr pyval :=
  let advice := default ∅ (advice_map !! disease) in
  if negb (truthy (PDict advice)) then _create_error_response disease
  else dict_literal [
    (u "bệnh_lý", PStr disease);
    (u "tư_vấn_tổng_quát", PDict advice);
    (u "khuyến_nghị",
      PStr (u "Nên tham khảo ý kiến bác sĩ chuyên khoa " ++ lower disease
            ++ u " để có chế độ ăn phù hợp nhất"))
  ].

Definition nutrition_row (calories : Z) (protein : pyval) (carbs : Z)
    (fat : pyval) (sodium : Z) : gmap pystr pyval :=
  dict_literal [
    (u "calories", PInt calories); (u "protein", protein);
    (u "carbs", PInt carbs); (u "fat", fat); (u "sodium", PInt sodium)].

Definition nutrition_db : list (pystr * gmap pystr pyval) := [
  (u "phở bò", nutrition_row 450 (PInt 30) 45 (PInt 15) 1200);
  (u "cơm trắng",
    nutrition_row 130
      (PFloat (Q2Qc (3039929748475085 # 1125899906842624))) 28
      (PFloat (Q2Qc (5404319552844595 # 18014398509481984))) 1);
  (u "bánh mì", nutrition_row 250 (PInt 8) 40 (PInt 8) 400);
  (u "gỏi cuốn", nutrition_row 60 (PInt 3) 12 (PInt 1) 200);
  (u "bún bò huế", nutrition_row 500 (PInt 25) 50 (PInt 20) 1500);
  (u "cơm tấm", nutrition_row 650 (PInt 35) 70 (PInt 25) 800)
].

(** The lookup loop of [_analyze_food_for_disease]: the first entry whose
    key contains the name or is contained in it. *)
Fixpoint find_nutrition (food_lower : pystr)
    (items : list (pystr * gmap pystr pyval)) : option (gmap pystr pyval) :=
  match items with
  | [] => None
  | (key, data) :: rest =>
      if contains food_lower key || contains key food_lower then Some data
      else find_nutrition food_lower rest
  end.

Section HealthAdvisorTool.
Context `{Formatter}.
#[local] Open Scope Z_scope.

(** ['Thấp' if v <= low else 'Cao' if v > high else 'Trung bình'] *)
Definition level_word (v : pyval) (low high : Z) : outcome pystr :=
  is_low ← py_le v low;
  if (is_low : bool) then Returns (u "Thấp")
  else
    is_high ← py_gt v high;
    Returns (if (is_high : bool) then u "Cao" else u "Trung bình").

(** The three-way choice of score and label on one nutrient. *)
Definition graded (v : pyval) (low high : Z)
    (below : Z * pystr) (between : Z * pystr) (above : Z * pystr)
  : outcome (Z * pystr) :=
  is_low ← py_le v low;
  if (is_low : bool) then Returns below
  else
    is_mid ← py_le v high;
    Returns (if (is_mid : bool) then between else above).

Definition _get_food_analysis (nutrition : gmap pystr pyval)
    (disease : pystr) : outcome (gmap pystr pyval) :=
  let analysis : gmap pystr pyval := dict_literal [
    (u "điểm_số", PInt 50); (u "mức_độ_an_toàn", PStr (u "Trung bình"))] in
  if bool_decide (disease = u "Tiểu đường") then
    let carbs := dict_get nutrition (u "carbs") (PInt 0) in
    grade ← graded carbs 20 40 (80, u "An toàn") (60, u "Chấp nhận được")
               (30, u "Cần hạn chế");
    word ← level_word carbs 20 40;
    Returns (<[u "lý_do" :=
                 PStr (u "Carbs: " ++ py_format carbs ++ u "g - " ++ word)]>
               (<[u "mức_độ_an_toàn" := PStr grade.2]>
                  (<[u "điểm_số" := PInt grade.1]> analysis)))
  else if bool_decide (disease = u "Béo phì") then
    let calories := dict_get nutrition (u "calories") (PInt 0) in
    grade ← graded calories 200 400 (80, u "Tốt cho giảm cân")
               (60, u "Ăn vừa phải") (30, u "Hạn chế");
    word ← level_word calories 200 400;
    Returns (<[u "lý_do" :=
                 PStr (u "Calories: " ++ py_format calories ++ u " - "
                       ++ word)]>
               (<[u "mức_độ_an_toàn" := PStr grade.2]>
                  (<[u "điểm_số" := PInt grade.1]> analysis)))
  else if bool_decide (disease = u "Huyết áp cao") then
    let sodium := dict_get nutrition (u "sodium") (PInt 0) in
    grade ← graded sodium 300 600 (80, u "An toàn") (50, u "Cần cẩn thận")
               (20, u "Nguy hiểm");
    word ← level_word sodium 300 600;
    Returns (<[u "lý_do" :=
                 PStr (u "Natrium: " ++ py_format sodium ++ u "mg - "
                       ++ word)]>
               (<[u "mức_độ_an_toàn" := PStr grade.2]>
                  (<[u "điểm_số" := PInt grade.1]> analysis)))
  else Returns analysis.

Definition _get_recommendations (nutrition : gmap pystr pyval)
    (disease : pystr) : outcome (list pystr) :=
  let recommendations : list pystr := [] in
  if bool_decide (disease = u "Tiểu đường") then
    high ← py_gt (dict_get nutrition (u "carbs") (PInt 0)) 40;
    let recommendations :=
      if (high : bool) then
        recommendations ++ [u "Giảm khẩu phần xuống 1/2";
                            u "Kết hợp với rau xanh để chậm hấp thụ đường"]
      else recommendations in
    Returns (recommendations ++ [u "Ăn sau khi tập thể dục nhẹ"])
  else if bool_decide (disease = u "Béo phì") then
    high ← py_gt (dict_get nutrition (u "calories") (PInt 0)) 400;
    let recommendations :=
      if (high : bool) then
        recommendations ++ [u "Chia thành 2 bữa nhỏ";
                            u "Bỏ phần nước dùng để giảm calo"]
      else recommendations in
    Returns (recommendations ++ [u "Tăng cường rau xanh"])
  else if bool_decide (disease = u "Huyết áp cao") then
    high ← py_gt (dict_get nutrition (u "sodium") (PInt 0)) 600;
    let recommendations :=
      if (high : bool) then
        recommendations ++ [u "Không thêm muối/nước mắm";
                            u "Rửa sạch để bớt mặn"]
      else recommendations in
    Returns (recommendations ++ [u "Kết hợp với trái cây giàu kali"])
  else Returns recommendations.

Definition _analyze_food_for_disease (food_name disease : pystr)
  : outcome (gmap pystr pyval) :=
  let food_lower := lower food_name in
  match find_nutrition food_lower nutrition_db with
  | Some nutrition =>
      if negb (truthy (PDict nutrition)) then
        Returns (dict_literal [
          (u "món_ăn", PStr food_name);
          (u "kết_quả", PStr (u "Không tìm thấy thông tin dinh dưỡng"));
          (u "gợi_ý", PStr (u "Vui lòng cung cấp thông tin chi tiết hơn về món ăn"))])
      else
        analysis ← _get_food_analysis nutrition disease;
        recommendations ← _get_recommendations nutrition disease;
        Returns (dict_literal [
          (u "món_ăn", PStr food_name);
          (u "bệnh_lý", PStr disease);
          (u "thông_tin_dinh_dưỡng", PDict nutrition);
          (u "phân_tích", PDict analysis);
          (u "khuyến_nghị", PList (PStr <$> recommendations))])
  | None =>
      Returns (dict_literal [
        (u "món_ăn", PStr food_name);
        (u "kết_quả", PStr (u "Không tìm thấy thông tin dinh dưỡng"));
        (u "gợi_ý", PStr (u "Vui lòng cung cấp thông tin chi tiết hơn về món ăn"))])
  end.

(** What [_run] hands back: the JSON document of a dictionary, or the text
    [Lỗi khi tư vấn sức khỏe: ...] its [except] clause builds from an
    exception. *)
Inductive reply :=
  | Json (document : gmap pystr pyval)
  | ErrorText.

Definition _run (disease : pystr) (food_name : option pystr) : reply :=
  let attempt : outcome (gmap pystr pyval) :=
    match _normalize_disease_name disease with
    | Some standardized_disease =>
        if negb (truthy (PStr standardized_disease)) then
          Returns (_create_error_response disease)
        else
          match food_name with
          | Some name =>
              if truthy (PStr name) then
                _analyze_food_for_disease name standardized_disease
              else Returns (_get_general_advice standardized_disease)
          | None => Returns (_get_general_advice standardized_disease)
          end
    | None => Returns (_create_error_response disease)
    end in
  match attempt with
  | Returns document => Json document
  | Raises => ErrorText
  end.

End HealthAdvisorTool.
End health_advisor_simple.

(** ** app/utils/database_helpers.py

    The queries go to the database; what they find is the state of the
    session.  A query returns its rows or raises. *)

Module database_helpers.

(** Rows of the tables the helpers read (app/database/models.py). *)
Record FoodNutrient := {
  nutrient_name : pystr;
  amount_per_100g : Qc;
}.

Record Food := {
  food_name : pystr;
  food_category : option pystr;
  calories_per_100g : Qc;
  high_glycemic : option bool;
  high_sodium : option bool;
  image_url : option pystr;
  nutrients : list FoodNutrient;
}.

Record MedicalCondition := {
  condition_name : pystr;
  condition_code : option pystr;
  condition_description : option pystr;
  recommended_diet_type : option pystr;
  condition_warnings : option pystr;
  recommended_calories_multiplier : option Qc;
}.

Record DiseaseRecommendation := {
  recommended_nutrient : pystr;
  recommended_daily_min : option Qc;
  recommended_daily_max : option Qc;
  recommendation_notes : option pystr;
}.

(** One database session: the answer of each query the helpers issue, and
    the rounding [float] applies to a decimal column. *)
Class Session := {
  first_food_named_like : pystr → outcome (option Food);
  first_condition_named_like :
    pystr → outcome (option (MedicalCondition * list DiseaseRecommendation));
  low_glycemic_foods : Z → outcome (list Food);
  low_sodium_foods : Z → outcome (list Food);
  low_calorie_foods : Z → outcome (list Food);
  float : Qc → Qc;
}.

Definition py_of_str (o : option pystr) : pyval :=
  match o with
  | Some s => PStr s
  | None => PNone
  end.

Definition py_of_bool (o : option bool) : pyval :=
  match o with
  | Some b => PBool b
  | None => PNone
  end.

Section DatabaseHelpers.
Context `{Session}.

(** [float(x) if x else 0] on a decimal column. *)
Definition float_or_zero (x : Qc) : pyval :=
  if bool_decide (x = Qc_of_Z 0) then PInt 0 else PFloat (float x).

(** [float(x) if x else dflt] on a nullable decimal column. *)
Definition float_or (dflt : pyval) (x : option Qc) : pyval :=
  match x with
  | Some q => if bool_decide (q = Qc_of_Z 0) then dflt else PFloat (float q)
  | None => dflt
  end.

(** The body of the loop over [food_item.nutrients] in
    [get_food_nutrition]. *)
Definition record_nutrient (nutrition_data : gmap pystr pyval)
    (nutrient_rel : FoodNutrient) : gmap pystr pyval :=
  let nutrient_name := lower (nutrient_name nutrient_rel) in
  let amount := float_or_zero (amount_per_100g nutrient_rel) in
  if contains (u "protein") nutrient_name then
    <[u "protein" := amount]> nutrition_data
  else if contains (u "carb") nutrient_name
          || contains (u "carbohydrate") nutrient_name then
    <[u "carbs" := amount]> nutrition_data
  else if contains (u "fat") nutrient_name then
    <[u "fat" := amount]> nutrition_data
  else if contains (u "fiber") nutrient_name then
    <[u "fiber" := amount]> nutrition_data
  else if contains (u "sodium") nutrient_name then
    <[u "sodium" := amount]> nutrition_data
  else nutrition_data.

Definition get_food_nutrition (food_name : pystr)
  : option (gmap pystr pyval) :=
  match first_food_named_like food_name with
  | Returns (Some food_item) =>
      let nutrition_data := dict_literal [
        (u "name", PStr (database_helpers.food_name food_item));
        (u "category", py_of_str (food_category food_item));
        (u "calories", float_or_zero (calories_per_100g food_item));
        (u "high_glycemic", py_of_bool (high_glycemic food_item));
        (u "high_sodium", py_of_bool (high_sodium food_item));
        (u "image_url", py_of_str (image_url food_item))
      ] in
      Some (foldl record_nutrient nutrition_data (nutrients food_item))
  | Returns None => None
  | Raises => None
  end.

Definition disease_map : gmap pystr pystr := dict_literal [
  (u "tiểu đường", u "Tiểu đường type 2");
  (u "đái tháo đường", u "Tiểu đường type 2");
  (u "diabetes", u "Tiểu đường type 2");
  (u "béo phì", u "Béo phì");
  (u "obesity", u "Béo phì");
  (u "huyết áp cao", u "Cao huyết áp");
  (u "tăng huyết áp", u "Cao huyết áp");
  (u "cao huyết áp", u "Cao huyết áp");
  (u "hypertension", u "Cao huyết áp");
  (u "gout", u "Gout")
].

Definition fallback_rules : list (pystr * gmap pystr pyval) := [
  (u "Tiểu đường", dict_literal [
    (u "disease_name", PStr (u "Tiểu đường"));
    (u "max_daily_calories", PInt 1800);
    (u "max_daily_carbs", PFloat (Qc_of_Z 150));
    (u "foods_to_avoid",
      PList [PStr (u "đường trắng"); PStr (u "bánh ngọt");
             PStr (u "nước ngọt"); PStr (u "cơm trắng")]);
    (u "recommended_foods",
      PList [PStr (u "rau xanh"); PStr (u "cá"); PStr (u "trứng");
             PStr (u "yến mạch")]);
    (u "guidelines", PStr (u "Ăn ít đường, nhiều chất xơ. Chia nhỏ bữa ăn."))]);
  (u "Béo phì", dict_literal [
    (u "disease_name", PStr (u "Béo phì"));
    (u "max_daily_calories", PInt 1500);
    (u "max_daily_fat", PFloat (Qc_of_Z 50));
    (u "foods_to_avoid",
      PList [PStr (u "đồ chiên"); PStr (u "thức ăn nhanh");
             PStr (u "nước ngọt")]);
    (u "recommended_foods",
      PList [PStr (u "rau củ"); PStr (u "trái cây ít đường");
             PStr (u "ức gà"); PStr (u "cá")]);
    (u "guidelines",
      PStr (u "Giảm calo, tăng vận động. Ăn nhiều rau, ít chất béo."))]);
  (u "Huyết áp cao", dict_literal [
    (u "disease_name", PStr (u "Huyết áp cao"));
    (u "max_daily_sodium", PFloat (Qc_of_Z 1500));
    (u "foods_to_avoid",
      PList [PStr (u "muối"); PStr (u "nước mắm"); PStr (u "đồ hộp");
             PStr (u "thịt hun khói")]);
    (u "recommended_foods",
      PList [PStr (u "chuối"); PStr (u "rau bina"); PStr (u "cá hồi");
             PStr (u "yến mạch")]);
    (u "guidelines", PStr (u "Hạn chế muối, tăng kali. Ăn nhiều rau quả."))])
].

Definition _get_fallback_disease_rules (disease_name : pystr)
  : option (gmap pystr pyval) :=
  dict_literal fallback_rules !! disease_name.

(** The body of the loop over the recommendations of a condition. *)
Definition record_limit (nutrient_limits : gmap pystr pyval)
    (rec : DiseaseRecommendation) : gmap pystr pyval :=
  <[recommended_nutrient rec := PDict (dict_literal [
      (u "min", float_or PNone (recommended_daily_min rec));
      (u "max", float_or PNone (recommended_daily_max rec));
      (u "notes", py_of_str (recommendation_notes rec))])]> nutrient_limits.

(** [str.title], used for names the normalization table does not hold, is
    left to the Python runtime. *)
Context (title : pystr → pystr).

Definition get_disease_rules (disease_name : pystr)
  : option (gmap pystr pyval) :=
  let disease_name := lower (strip disease_name) in
  let standardized_name :=
    default (title disease_name) (disease_map !! disease_name) in
  match first_condition_named_like standardized_name with
  | Returns (Some (medical_condition, recommendations)) =>
      let nutrient_limits := foldl record_limit ∅ recommendations in
      Some (dict_literal [
        (u "disease_name", PStr (condition_name medical_condition));
        (u "code", py_of_str (condition_code medical_condition));
        (u "description",
          py_of_str (condition_description medical_condition));
        (u "recommended_diet_type",
          py_of_str (recommended_diet_type medical_condition));
        (u "warnings", py_of_str (condition_warnings medical_condition));
        (u "recommended_calories_multiplier",
          float_or (PFloat (Qc_of_Z 1))
            (recommended_calories_multiplier medical_condition));
        (u "nutrient_limits", PDict nutrient_limits);
        (u "guidelines",
          py_or (py_of_str (condition_description medical_condition))
                (py_of_str (condition_warnings medical_condition)))
      ])
  | Returns None => _get_fallback_disease_rules standardized_name
  | Raises => _get_fallback_disease_rules disease_name
  end.

Definition fallback_food (name : pystr) (calories : Z) (protein carbs : pyval)
    (category : pystr) : gmap pystr pyval :=
  dict_literal [
    (u "name", PStr name); (u "calories", PInt calories);
    (u "protein", protein); (u "carbs", carbs);
    (u "category", PStr category)].

Definition _get_fallback_suitable_foods (disease_name : pystr)
  : list (gmap pystr pyval) :=
  if contains (u "tiểu đường") (lower disease_name) then [
    fallback_food (u "Rau xanh") 25 (PInt 3) (PInt 5) (u "rau");
    fallback_food (u "Cá hồi") 180 (PInt 25) (PInt 0) (u "protein");
    fallback_food (u "Trứng gà") 155 (PInt 13) (PInt 1) (u "protein");
    fallback_food (u "Yến mạch") 68 (PFloat (Q2Qc (5 # 2))) (PInt 12)
      (u "ngũ cốc");
    fallback_food (u "Quả bơ") 160 (PInt 2) (PInt 9) (u "trái cây")
  ]
  else if contains (u "béo phì") (lower disease_name) then [
    fallback_food (u "Dưa chuột") 16
      (PFloat (Q2Qc (3152519739159347 # 4503599627370496))) (PInt 4) (u "rau");
    fallback_food (u "Cà chua") 18
      (PFloat (Q2Qc (8106479329266893 # 9007199254740992))) (PInt 4) (u "rau");
    fallback_food (u "Ức gà luộc") 165 (PInt 31) (PInt 0) (u "protein");
    fallback_food (u "Rau muống") 19
      (PFloat (Q2Qc (5854679515581645 # 2251799813685248))) (PInt 3) (u "rau");
    fallback_food (u "Cá diếc") 90 (PInt 18) (PInt 0) (u "protein")
  ]
  else [
    fallback_food (u "Chuối") 89
      (PFloat (Q2Qc (2476979795053773 # 2251799813685248))) (PInt 23)
      (u "trái cây");
    fallback_food (u "Rau bina") 23
      (PFloat (Q2Qc (6530219459687219 # 2251799813685248))) (PInt 4) (u "rau");
    fallback_food (u "Yến mạch") 68 (PFloat (Q2Qc (5 # 2))) (PInt 12)
      (u "ngũ cốc");
    fallback_food (u "Cá thu") 140 (PInt 25) (PInt 0) (u "protein");
    fallback_food (u "Đậu đen") 132 (PInt 9) (PInt 23) (u "đậu")
  ].

(** [food.category or "khác"] *)
Definition category_or_other (category : option pystr) : pyval :=
  py_or (py_of_str category) (PStr (u "khác")).

(** The body of the loop over [food.nutrients] in
    [get_suitable_foods_for_disease]. *)
Definition record_protein_carbs (food_data : gmap pystr pyval)
    (nutrient_rel : FoodNutrient) : gmap pystr pyval :=
  let nutrient_name := lower (nutrient_name nutrient_rel) in
  let amount := float_or_zero (amount_per_100g nutrient_rel) in
  if contains (u "protein") nutrient_name then
    <[u "protein" := amount]> food_data
  else if contains (u "carb") nutrient_name then
    <[u "carbs" := amount]> food_data
  else food_data.

Definition suitable_food_data (food : Food) : gmap pystr pyval :=
  let food_data := dict_literal [
    (u "name", PStr (database_helpers.food_name food));
    (u "calories", float_or_zero (calories_per_100g food));
    (u "category", category_or_other (food_category food));
    (u "protein", PInt 0);
    (u "carbs", PInt 0)
  ] in
  foldl record_protein_carbs food_data (nutrients food).

Definition get_suitable_foods_for_disease (disease_name : pystr) (limit : Z)
  : list (gmap pystr pyval) :=
  let disease_name := lower (strip disease_name) in
  let foods :=
    if contains (u "tiểu đường") disease_name
       || contains (u "diabetes") disease_name then
      low_glycemic_foods limit
    else if contains (u "huyết áp") disease_name
            || contains (u "hypertension") disease_name then
      low_sodium_foods limit
    else low_calorie_foods limit in
  match foods with
  | Returns foods =>
      let result := suitable_food_data <$> foods in
      if truthy (PList (PDict <$> result)) then result
      else _get_fallback_suitable_foods disease_name
  | Raises => _get_fallback_suitable_foods disease_name
  end.

End DatabaseHelpers.
End database_helpers.

(** ** The specification's vocabulary *)

(** The three canonical categories and the names the code gives them. *)
Inductive DiseaseCategory := Diabetes | Obesity | Hypertension.

Definition canonical_name (c : DiseaseCategory) : pystr :=
  match c with
  | Diabetes => u "Tiểu đường"
  | Obesity => u "Béo phì"
  | Hypertension => u "Huyết áp cao"
  end.

Inductive SafetyTier := Safe | Acceptable | Restricted.

(** The headline the food analysis prints for each tier. *)
Definition tier_label (t : SafetyTier) : pystr :=
  match t with
  | Safe => u "RẤT AN TOÀN ✅"
  | Acceptable => u "CHẤP NHẬN ĐƯỢC ⚠️"
  | Restricted => u "KHÔNG NÊN ĂN ❌"
  end.

(** The reference score of section 4.2, written from the specification:
    a base of 50, one delta per dimension, clamped to the range 0..100. *)
Definition bonus (cond : bool) (points : Z) : Z :=
  if cond then points else 0%Z.

Definition spec_delta (c : DiseaseCategory) (calories protein carbs fat : Qc)
    (low_sodium_category : bool) : Z :=
  match c with
  | Diabetes =>
      (if bool_decide (carbs ≤ Qc_of_Z 30)%Qc then 20
       else if bool_decide (carbs ≤ Qc_of_Z 50)%Qc then 10 else -20)
      + bonus (bool_decide (Qc_of_Z 15 ≤ protein)%Qc) 15
      + bonus (bool_decide (calories ≤ Qc_of_Z 400)%Qc) 15
  | Obesity =>
      (if bool_decide (calories ≤ Qc_of_Z 200)%Qc then 25
       else if bool_decide (calories ≤ Qc_of_Z 400)%Qc then 10 else -25)
      + (if bool_decide (fat ≤ Qc_of_Z 10)%Qc then 15
         else if bool_decide (fat ≤ Qc_of_Z 20)%Qc then 5 else -15)
  | Hypertension =>
      bonus (bool_decide (calories ≤ Qc_of_Z 300)%Qc) 15
      + bonus (bool_decide (Qc_of_Z 10 ≤ protein)%Qc) 10
      + bonus low_sodium_category 20
  end%Z.

Definition spec_score (c : DiseaseCategory) (calories protein carbs fat : Qc)
    (low_sodium_category : bool) : Z :=
  Z.max 0 (Z.min 100 (50 + spec_delta c calories protein carbs fat
                                       low_sodium_category)).

(** The known low-sodium food categories of section 4.2, and the
    reference's test on a food's category: the food has a category, it is
    a string, and the string is one of the list. *)
Definition low_sodium_categories : list pystr :=
  [u "rau"; u "trái cây"; u "cá"].

Definition food_category (nutrition : gmap pystr pyval) : option pystr :=
  match nutrition !! u "category" with
  | Some (PStr category) => Some category
  | _ => None
  end.

Definition in_low_sodium_list (category : option pystr) : bool :=
  match category with
  | Some c => bool_decide (c ∈ low_sodium_categories)
  | None => false
  end.

(** The nutrient keys the scorer reads. *)
Definition nutrient_keys : list pystr :=
  [u "calories"; u "carbs"; u "fat"; u "protein"].

(** The number the scorer works with for a nutrient, when there is one. *)
Definition nutrient (nutrition : gmap pystr pyval) (key : pystr) : option Qc :=
  as_number (health_advisor.get_or_zero nutrition key).

(** The tier of a score, per section 3 of the specification. *)
Definition tier_of_score (score : Z) : SafetyTier :=
  if (80 <=? score)%Z then Safe
  else if (60 <=? score)%Z then Acceptable
  else Restricted.

(** The one-line advice printed next to each tier. *)
Definition tier_advice (t : SafetyTier) : pystr :=
  match t with
  | Safe => u "Món ăn này rất phù hợp với bệnh lý của bạn"
  | Acceptable => u "Có thể ăn nhưng cần hạn chế khẩu phần"
  | Restricted => u "Nên tránh món ăn này"
  end.

(** The nutrition facts the food analysis works with: the database's
    answer, else the fallback table's; [None] when both come back empty. *)
Definition resolved_nutrition `{DatabaseHelpers} (food_name : pystr)
  : option (gmap pystr pyval) :=
  let info :=
    if truthy_dict (get_food_nutrition food_name)
    then get_food_nutrition food_name
    else health_advisor._get_fallback_nutrition food_name in
  if truthy_dict info then info else None.

(** The "insufficient data" answer of the food analysis. *)
Definition insufficient_data (food_name : pystr) : gmap pystr pyval :=
  dict_literal [
    (u "lỗi", PStr (u "Không tìm thấy thông tin dinh dưỡng cho '"
                    ++ food_name ++ u "'"));
    (u "gợi_ý", PStr (u "Thử với tên món ăn khác như: phở bò, cơm tấm, bánh mì, gỏi cuốn"))
  ].

(** The finished answer of the food analysis, once the score, the
    breakdown and the suggestions are known. *)
Definition analysis_answer (disease food_name portion_size : pystr)
    (nutrition : gmap pystr pyval) (score : Z)
    (breakdown : gmap pystr pyval) (suggestions : list pystr)
  : gmap pystr pyval :=
  dict_literal [
    (u "thông_tin_món_ăn", PDict (dict_literal [
      (u "tên", PStr food_name);
      (u "khẩu_phần", PStr portion_size);
      (u "dinh_dưỡng_chi_tiết", PDict nutrition)]));
    (u "phân_tích_cho_bệnh", PStr disease);
    (u "đánh_giá_từng_chất", PDict breakdown);
    (u "mức_độ_an_toàn", PStr (tier_label (tier_of_score score)));
    (u "điểm_số", PInt score);
    (u "lời_khuyên_cụ_thể", PList [PStr (tier_advice (tier_of_score score))]);
    (u "cách_điều_chỉnh", PList (PStr <$> suggestions))
  ].

(** The part of the general advice that does not depend on the disease
    rules of the database. *)
Definition base_advice `{DatabaseHelpers} (disease : pystr)
  : gmap pystr pyval :=
  dict_literal [
    (u "bệnh", PStr disease);
    (u "cảnh_báo_nặng_nhất",
      PList (PStr <$> health_advisor._get_critical_nutrients disease));
    (u "lời_khuyên_ngắn_gọn",
      PStr (health_advisor._get_disease_advice disease));
    (u "hạn_chế_nghiêm_ngặt",
      PList (PStr <$> health_advisor._get_restricted_foods disease));
    (u "nên_ăn_nhiều",
      PList (PStr <$> health_advisor._get_recommended_foods disease));
    (u "calo_tối_đa_mỗi_bữa",
      PInt (health_advisor._get_max_calories_per_meal disease));
    (u "thực_phẩm_an_toàn_hôm_nay",
      PList (PDict <$> get_suitable_foods_for_disease disease 5))
  ].

(** The keys the general advice adds from the disease rules. *)
Definition rule_keys : list pystr :=
  [u "hướng_dẫn_chi_tiết"; u "tránh_hoàn_toàn"; u "khuyến_khích";
   u "giới_hạn_calo_ngày"].

(** Disease rules on which the general advice raises no exception: the
    guidelines, when present, are a string, and the two food lists, when
    present, are lists or strings. *)
Definition sliceable (v : pyval) : bool :=
  negb (truthy v)
  || match v with PStr _ | PList _ => true | _ => false end.

Definition well_typed_rules (rules : gmap pystr pyval) : bool :=
  (negb (truthy (dict_get rules (u "guidelines") PNone))
   || match dict_get rules (u "guidelines") PNone with
      | PStr _ => true
      | _ => false
      end)
  && sliceable (dict_get rules (u "foods_to_avoid") PNone)
  && sliceable (dict_get rules (u "recommended_foods") PNone).

(** What a returned dictionary holds under a key. *)
Definition returned_at (key : pystr) (o : outcome (gmap pystr pyval))
  : option pyval :=
  match o with
  | Returns r => r !! key
  | Raises => None
  end.

(** ** Database states used to exercise the theorems *)

(** A database with no rows: every lookup is empty-handed. *)
Definition empty_database : DatabaseHelpers := {|
  get_food_nutrition _ := None;
  get_disease_rules _ := None;
  get_suitable_foods_for_disease _ _ := [];
|}.

(** A row as [get_food_nutrition] builds it, with a negative calorie
    column. *)
Definition negative_row : gmap pystr pyval := dict_literal [
  (u "name", PStr (u "canh chua"));
  (u "category", PStr (u "canh"));
  (u "calories", PFloat (Qc_of_Z (-100)));
  (u "high_glycemic", PBool false);
  (u "high_sodium", PBool false);
  (u "image_url", PNone);
  (u "protein", PFloat (Qc_of_Z 12));
  (u "carbs", PFloat (Qc_of_Z 10));
  (u "fat", PFloat (Qc_of_Z 3))
].

(** The hard-coded rules [_get_fallback_disease_rules] holds for diabetes. *)
Definition diabetes_rules : gmap pystr pyval := dict_literal [
  (u "disease_name", PStr (u "Tiểu đường"));
  (u "max_daily_calories", PInt 1800);
  (u "max_daily_carbs", PFloat (Qc_of_Z 150));
  (u "foods_to_avoid",
    PList [PStr (u "đường trắng"); PStr (u "bánh ngọt"); PStr (u "nước ngọt");
           PStr (u "cơm trắng")]);
  (u "recommended_foods",
    PList [PStr (u "rau xanh"); PStr (u "cá"); PStr (u "trứng");
           PStr (u "yến mạch")]);
  (u "guidelines", PStr (u "Ăn ít đường, nhiều chất xơ. Chia nhỏ bữa ăn."))
].

Definition sample_database : DatabaseHelpers := {|
  get_food_nutrition name :=
    if contains (u "canh chua") (lower name) then Some negative_row else None;
  get_disease_rules name :=
    if bool_decide (name = u "Tiểu đường") then Some diabetes_rules else None;
  get_suitable_foods_for_disease _ _ := [];
|}.

(** A formatter that prints nothing for floats and containers. *)
Definition blank_formatter : Formatter := {| format_other _ := [] |}.

(** ** The advisor on database_helpers.py *)
(** Facts in which every nutrient the scorer reads is a number. *)
Definition numeric_facts (nutrition : gmap pystr pyval) : Prop :=
  ∀ key, key ∈ nutrient_keys → is_Some (nutrient nutrition key).

(** The helper class of the advisor, as database_helpers.py implements
    it on a session. *)
Definition helpers_on_session `{database_helpers.Session}
    (title : pystr → pystr) : DatabaseHelpers := {|
  get_food_nutrition := database_helpers.get_food_nutrition;
  get_disease_rules := database_helpers.get_disease_rules title;
  get_suitable_foods_for_disease :=
    database_helpers.get_suitable_foods_for_disease;
|}.

(** A session in which every query raises, and one in which every query
    finds nothing. *)
Definition failing_session : database_helpers.Session := {|
  database_helpers.first_food_named_like _ := Raises;
  database_helpers.first_condition_named_like _ := Raises;
  database_helpers.low_glycemic_foods _ := Raises;
  database_helpers.low_sodium_foods _ := Raises;
  database_helpers.low_calorie_foods _ := Raises;
  database_helpers.float q := q;
|}.

Definition empty_session : database_helpers.Session := {|
  database_helpers.first_food_named_like _ := Returns None;
  database_helpers.first_condition_named_like _ := Returns None;
  database_helpers.low_glycemic_foods _ := Returns [];
  database_helpers.low_sodium_foods _ := Returns [];
  database_helpers.low_calorie_foods _ := Returns [];
  database_helpers.float q := q;
|}.

(** A session holding one food, with a null category, a zero calorie
    column and nutrient rows in mixed case. *)
Definition one_food_session : database_helpers.Session := {|
  database_helpers.first_food_named_like _ :=
    Returns (Some {|
      database_helpers.food_name := u "Canh chua";
      database_helpers.food_category := None;
      database_helpers.calories_per_100g := Qc_of_Z 0;
      database_helpers.high_glycemic := Some false;
      database_helpers.high_sodium := None;
      database_helpers.image_url := None;
      database_helpers.nutrients := [
        {| database_helpers.nutrient_name := u "Protein";
           database_helpers.amount_per_100g := Qc_of_Z 12 |};
        {| database_helpers.nutrient_name := u "Total Fat";
           database_helpers.amount_per_100g := Qc_of_Z (-3) |};
        {| database_helpers.nutrient_name := u "Vitamin C";
           database_helpers.amount_per_100g := Qc_of_Z 40 |}]
    |});
  database_helpers.first_condition_named_like _ := Returns None;
  database_helpers.low_glycemic_foods _ := Returns [];
  database_helpers.low_sodium_foods _ := Returns [];
  database_helpers.low_calorie_foods _ := Returns [];
  database_helpers.float q := q;
|}.

(** The same as a test. *)
Definition numeric_factsb (nutrition : gmap pystr pyval) : bool :=
  forallb (λ key, bool_decide (is_Some (nutrient nutrition key)))
    nutrient_keys.


(** The nutrients the simple analysis compares are numbers. *)
Definition simple_numericb (nutrition : gmap pystr pyval) : bool :=
  bool_decide (is_Some (as_number (dict_get nutrition (u "carbs") (PInt 0))))
  && bool_decide
       (is_Some (as_number (dict_get nutrition (u "calories") (PInt 0))))
  && bool_decide
       (is_Some (as_number (dict_get nutrition (u "sodium") (PInt 0)))).

(** ** Properties *)

Import health_advisor.

(** *** Dictionaries and string comparisons *)

Lemma lookup_dict_literal {V} (l : list (pystr * V)) (k : pystr) :
  dict_literal l !! k = assoc k l.
Proof.
  unfold dict_literal.
  induction l as [|[k' v] l IH]; simpl.
  - apply lookup_empty.
  - rewrite lookup_insert. case_bool_decide; case_decide; congruence.
Qed.

Lemma assoc_Some_elem {V} (k : pystr) (l : list (pystr * V)) (v : V) :
  assoc k l = Some v → (k, v) ∈ l.
Proof.
  induction l as [|[k' v'] l IH]; simpl; [done|].
  case_bool_decide; [intros [= <-]; subst; left | right; auto].
Qed.

Lemma assoc_elem_first {V} (k : pystr) (l : list (pystr * V)) (v : V) :
  NoDup l.*1 → (k, v) ∈ l → assoc k l = Some v.
Proof.
  induction l as [|[k' v'] l IH]; simpl; [by intros _ ?%elem_of_nil|].
  intros [Hnotin Hnd]%NoDup_cons [[= -> ->]|Hin]%elem_of_cons.
  - by rewrite bool_decide_eq_true_2.
  - rewrite bool_decide_eq_false_2; [by apply IH|].
    intros ->. apply Hnotin. apply list_elem_of_fmap. by exists (k, v).
Qed.

(** Comparisons between two string literals are settled by evaluation. *)
Ltac eval_literal_tests :=
  repeat match goal with
  | |- context [bool_decide (?a = ?b)] =>
      let t := constr:(bool_decide (a = b)) in
      let v := eval vm_compute in t in
      match v with
      | true => replace t with true by (vm_compute; reflexivity)
      | false => replace t with false by (vm_compute; reflexivity)
      end
  end.

(** Decidable facts about literals are settled the same way. *)
Ltac by_evaluation :=
  match goal with
  | |- ?P => apply (bool_decide_eq_true_1 P); vm_compute; reflexivity
  end.

Ltac dict_lookup :=
  repeat (rewrite ?lookup_insert, ?lookup_dict_literal; cbn [assoc];
          repeat case_decide; eval_literal_tests; try congruence).

Lemma as_number_or_zero (v : pyval) (q : Qc) :
  as_number v = Some q → as_number (py_or v (PInt 0)) = Some q.
Proof.
  unfold py_or. destruct (truthy v) eqn:T; [done|].
  destruct v; simpl in *; try done; intros [= <-].
  - by destruct b.
  - apply negb_false_iff, Z.eqb_eq in T. by subst.
  - apply negb_false_iff, bool_decide_eq_true in T. by subst.
Qed.

(** *** The scorer against the reference definition *)

Lemma score_diabetes nutrition cal pro carb fat low :
  nutrient nutrition (u "calories") = Some cal →
  nutrient nutrition (u "protein") = Some pro →
  nutrient nutrition (u "carbs") = Some carb →
  _calculate_safety_score nutrition (canonical_name Diabetes)
  = Returns (spec_score Diabetes cal pro carb fat low).
Proof.
  unfold nutrient, _calculate_safety_score, py_le, py_ge, spec_score,
    spec_delta, bonus.
  intros -> -> ->. simpl canonical_name. eval_literal_tests. simpl.
  repeat (case_bool_decide; simpl); reflexivity.
Qed.

Lemma score_obesity nutrition cal pro carb fat low :
  nutrient nutrition (u "calories") = Some cal →
  nutrient nutrition (u "fat") = Some fat →
  _calculate_safety_score nutrition (canonical_name Obesity)
  = Returns (spec_score Obesity cal pro carb fat low).
Proof.
  unfold nutrient, _calculate_safety_score, py_le, py_ge, spec_score,
    spec_delta, bonus.
  intros -> ->. simpl canonical_name. eval_literal_tests. simpl.
  repeat (case_bool_decide; simpl); reflexivity.
Qed.

Lemma score_hypertension nutrition cal pro carb fat :
  nutrient nutrition (u "calories") = Some cal →
  nutrient nutrition (u "protein") = Some pro →
  _calculate_safety_score nutrition (canonical_name Hypertension)
  = Returns (spec_score Hypertension cal pro carb fat
               (category_in_low_sodium_list nutrition)).
Proof.
  unfold nutrient, _calculate_safety_score, py_le, py_ge, spec_score,
    spec_delta, bonus.
  intros -> ->. simpl canonical_name. eval_literal_tests. simpl.
  destruct (category_in_low_sodium_list nutrition);
    repeat (case_bool_decide; simpl); reflexivity.
Qed.

Lemma score_canonical nutrition c cal pro carb fat :
  nutrient nutrition (u "calories") = Some cal →
  nutrient nutrition (u "protein") = Some pro →
  nutrient nutrition (u "carbs") = Some carb →
  nutrient nutrition (u "fat") = Some fat →
  _calculate_safety_score nutrition (canonical_name c)
  = Returns (spec_score c cal pro carb fat
               (category_in_low_sodium_list nutrition)).
Proof.
  intros. destruct c;
    eauto using score_diabetes, score_obesity, score_hypertension.
Qed.

(** The scorer's category test is the reference's membership test in the
    low-sodium list. *)
Lemma low_sodium_test_agrees (nutrition : gmap pystr pyval) :
  category_in_low_sodium_list nutrition
  = in_low_sodium_list (food_category nutrition).
Proof.
  unfold category_in_low_sodium_list, food_category, dict_get.
  destruct (nutrition !! u "category") as [[| | | |c| |]|];
    cbv beta iota delta [default from_option id in_low_sodium_list];
    try reflexivity.
  unfold low_sodium_categories. apply eq_true_iff_eq.
  rewrite !orb_true_iff, !bool_decide_eq_true, !elem_of_cons, elem_of_nil.
  tauto.
Qed.

(** C1: on nutrition facts whose four nutrients are numbers (absent and
    null entries count as zero), the scorer returns, for each of the three
    categories, exactly the reference score of section 4.2: base 50, the
    category's threshold deltas, for Hypertension +20 when the food's
    category is one of the low-sodium list, clamped to 0..100.  For
    Diabetes with calories 450, protein 30, carbs 45 and fat 15 the score
    is 75. *)
Theorem safety_score_refines_reference
    (nutrition : gmap pystr pyval) (c : DiseaseCategory)
    (cal pro carb fat : Qc) :
  nutrient nutrition (u "calories") = Some cal →
  nutrient nutrition (u "protein") = Some pro →
  nutrient nutrition (u "carbs") = Some carb →
  nutrient nutrition (u "fat") = Some fat →
  _calculate_safety_score nutrition (canonical_name c)
  = Returns (spec_score c cal pro carb fat
               (in_low_sodium_list (food_category nutrition)))
  ∧ _calculate_safety_score
      (dict_literal [(u "calories", PInt 450); (u "protein", PInt 30);
                     (u "carbs", PInt 45); (u "fat", PInt 15)])
      (canonical_name Diabetes)
    = Returns 75%Z.
Proof.
  intros Hcal Hpro Hcarb Hfat. split.
  - rewrite <- low_sodium_test_agrees. by apply score_canonical.
  - vm_compute. reflexivity.
Qed.

Lemma safety_score_refines_reference_witness :
  _calculate_safety_score
    (dict_literal [(u "calories", PInt 25); (u "protein", PInt 3);
                   (u "carbs", PInt 5); (u "category", PStr (u "rau"))])
    (canonical_name Hypertension)
  = Returns (spec_score Hypertension (Qc_of_Z 25) (Qc_of_Z 3) (Qc_of_Z 5)
               (Qc_of_Z 0) (in_low_sodium_list (Some (u "rau"))))
  ∧ spec_score Hypertension (Qc_of_Z 25) (Qc_of_Z 3) (Qc_of_Z 5) (Qc_of_Z 0)
      (in_low_sodium_list (Some (u "rau")))
    = 85%Z.
Proof.
  split.
  - apply (safety_score_refines_reference
             (dict_literal [(u "calories", PInt 25); (u "protein", PInt 3);
                            (u "carbs", PInt 5);
                            (u "category", PStr (u "rau"))])
             Hypertension (Qc_of_Z 25) (Qc_of_Z 3) (Qc_of_Z 5) (Qc_of_Z 0));
      vm_compute; reflexivity.
  - vm_compute. reflexivity.
Defined.

(** *** Reading nutrients from an updated dictionary *)

Lemma get_or_zero_insert_eq nutrition key v :
  get_or_zero (<[key := v]> nutrition) key = py_or v (PInt 0).
Proof. unfold get_or_zero, dict_get. by rewrite lookup_insert_eq. Qed.

Lemma get_or_zero_insert_ne nutrition key key' v :
  key ≠ key' →
  get_or_zero (<[key := v]> nutrition) key' = get_or_zero nutrition key'.
Proof. intros ?. unfold get_or_zero, dict_get. by rewrite lookup_insert_ne. Qed.

Lemma nutrient_insert_eq nutrition key v q :
  as_number v = Some q → nutrient (<[key := v]> nutrition) key = Some q.
Proof.
  intros ?. unfold nutrient. rewrite get_or_zero_insert_eq.
  by apply as_number_or_zero.
Qed.

Lemma nutrient_insert_ne nutrition key key' v :
  key ≠ key' → nutrient (<[key := v]> nutrition) key' = nutrient nutrition key'.
Proof. intros ?. unfold nutrient. by rewrite get_or_zero_insert_ne. Qed.

(** *** Monotonicity *)

Lemma spec_score_diabetes_antitone cal pro fat low (q1 q2 : Qc) :
  (q1 ≤ q2)%Qc →
  (spec_score Diabetes cal pro q2 fat low
   ≤ spec_score Diabetes cal pro q1 fat low)%Z.
Proof.
  intros Hle. unfold spec_score, spec_delta.
  repeat case_bool_decide; try lia;
    exfalso; eauto using Qcle_trans.
Qed.

(** C3: for Diabetes, with calories, protein and fat held fixed, replacing
    the carbs value by a larger one never increases the score; the scorer
    returns on both inputs.  Carbs 20 against carbs 60 is one instance. *)
Theorem diabetes_score_never_increases_with_carbs
    (nutrition : gmap pystr pyval) (c1 c2 : pyval) (q1 q2 cal pro : Qc) :
  nutrient nutrition (u "calories") = Some cal →
  nutrient nutrition (u "protein") = Some pro →
  as_number c1 = Some q1 →
  as_number c2 = Some q2 →
  (q1 ≤ q2)%Qc →
  ∃ s1 s2 : Z,
    _calculate_safety_score (<[u "carbs" := c1]> nutrition)
      (canonical_name Diabetes) = Returns s1
    ∧ _calculate_safety_score (<[u "carbs" := c2]> nutrition)
        (canonical_name Diabetes) = Returns s2
    ∧ (s2 ≤ s1)%Z.
Proof.
  intros Hcal Hpro H1 H2 Hle.
  exists (spec_score Diabetes cal pro q1 (Qc_of_Z 0) false),
         (spec_score Diabetes cal pro q2 (Qc_of_Z 0) false).
  split_and!.
  - apply score_diabetes.
    + by rewrite nutrient_insert_ne by (by vm_compute).
    + by rewrite nutrient_insert_ne by (by vm_compute).
    + by apply nutrient_insert_eq.
  - apply score_diabetes.
    + by rewrite nutrient_insert_ne by (by vm_compute).
    + by rewrite nutrient_insert_ne by (by vm_compute).
    + by apply nutrient_insert_eq.
  - by apply spec_score_diabetes_antitone.
Qed.

Lemma diabetes_score_never_increases_with_carbs_witness :
  ∃ s1 s2 : Z,
    _calculate_safety_score
      (<[u "carbs" := PInt 20]>
         (dict_literal [(u "calories", PInt 450); (u "protein", PInt 30);
                        (u "fat", PInt 15)]))
      (canonical_name Diabetes) = Returns s1
    ∧ _calculate_safety_score
        (<[u "carbs" := PInt 60]>
           (dict_literal [(u "calories", PInt 450); (u "protein", PInt 30);
                          (u "fat", PInt 15)]))
        (canonical_name Diabetes) = Returns s2
    ∧ (s2 ≤ s1)%Z.
Proof.
  apply (diabetes_score_never_increases_with_carbs _ (PInt 20) (PInt 60)
           (Qc_of_Z 20) (Qc_of_Z 60) (Qc_of_Z 450) (Qc_of_Z 30)).
  - vm_compute. reflexivity.
  - vm_compute. reflexivity.
  - reflexivity.
  - reflexivity.
  - apply (proj1 (Z2Qc_inj_le 20 60)). lia.
Defined.

(** *** The food analysis *)

Section Analysis.
Context `{DatabaseHelpers} `{Formatter}.

Lemma analysis_answer_assembled disease food_name portion_size nutrition
    score breakdown suggestions :
  <[u "cách_điều_chỉnh" := PList (PStr <$> suggestions)]>
    (<[u "đánh_giá_từng_chất" := PDict breakdown]>
       (<[u "lời_khuyên_cụ_thể" :=
            PList [PStr (tier_advice (tier_of_score score))]]>
          (<[u "mức_độ_an_toàn" := PStr (tier_label (tier_of_score score))]>
             (<[u "điểm_số" := PInt score]>
                (dict_literal [
                   (u "thông_tin_món_ăn", PDict (dict_literal [
                      (u "tên", PStr food_name);
                      (u "khẩu_phần", PStr portion_size);
                      (u "dinh_dưỡng_chi_tiết", PDict nutrition)]));
                   (u "phân_tích_cho_bệnh", PStr disease);
                   (u "đánh_giá_từng_chất", PDict (dict_literal []));
                   (u "mức_độ_an_toàn", PStr []);
                   (u "điểm_số", PInt 0);
                   (u "lời_khuyên_cụ_thể", PList []);
                   (u "cách_điều_chỉnh", PList [])])))))
  = analysis_answer disease food_name portion_size nutrition score
      breakdown suggestions.
Proof.
  unfold analysis_answer. generalize (tier_of_score score). intros t.
  generalize (tier_label t) (tier_advice t). intros l a.
  vm_compute. reflexivity.
Qed.

Lemma analyze_food_unresolved disease food_name portion_size :
  resolved_nutrition food_name = None →
  _analyze_food_for_disease disease food_name portion_size
  = Returns (insufficient_data food_name).
Proof.
  unfold resolved_nutrition, _analyze_food_for_disease.
  destruct (truthy_dict (get_food_nutrition food_name)) eqn:Hdb;
    cbn [negb].
  - rewrite Hdb. intros Hnone. rewrite Hnone in Hdb. discriminate Hdb.
  - destruct (_get_fallback_nutrition food_name) as [n|] eqn:Hfb;
      cbn [truthy_dict].
    + destruct (truthy (PDict n)); intros Hnone.
      * discriminate Hnone.
      * reflexivity.
    + intros _. reflexivity.
Qed.

Lemma analyze_food_resolved disease food_name portion_size nutrition :
  resolved_nutrition food_name = Some nutrition →
  _analyze_food_for_disease disease food_name portion_size
  = (score ← _calculate_safety_score nutrition disease;
     breakdown ← _analyze_nutrients_for_disease nutrition disease;
     suggestions ← _get_adjustment_suggestions nutrition disease;
     Returns (analysis_answer disease food_name portion_size nutrition
                score breakdown suggestions)).
Proof.
  unfold resolved_nutrition, _analyze_food_for_disease.
  set (info := if truthy_dict (get_food_nutrition food_name)
               then get_food_nutrition food_name
               else _get_fallback_nutrition food_name).
  replace (if negb (truthy_dict (get_food_nutrition food_name))
           then _get_fallback_nutrition food_name
           else get_food_nutrition food_name) with info
    by (subst info; destruct (truthy_dict _); reflexivity).
  destruct (truthy_dict info) eqn:Hinfo; [|intros Hn; discriminate Hn].
  intros ->. cbn [truthy_dict] in Hinfo. rewrite Hinfo. cbn [negb].
  destruct (_calculate_safety_score nutrition disease) as [s|];
    cbn [mbind outcome_bind]; [|reflexivity].
  destruct (_analyze_nutrients_for_disease nutrition disease) as [b|];
    cbn [mbind outcome_bind]; [|reflexivity].
  destruct (_get_adjustment_suggestions nutrition disease) as [g|];
    cbn [mbind outcome_bind]; [|reflexivity].
  f_equal. rewrite <- analysis_answer_assembled. unfold tier_of_score.
  destruct (80 <=? s)%Z; [cbn [tier_label tier_advice]; reflexivity|].
  destruct (60 <=? s)%Z; cbn [tier_label tier_advice]; reflexivity.
Qed.

(** The breakdown and the suggestions compare the same nutrient the
    scorer compared first, so they return whenever the scorer did. *)
Lemma scored_then_analysed nutrition disease s :
  _calculate_safety_score nutrition disease = Returns s →
  ∃ breakdown suggestions,
    _analyze_nutrients_for_disease nutrition disease = Returns breakdown
    ∧ _get_adjustment_suggestions nutrition disease = Returns suggestions.
Proof.
  unfold _calculate_safety_score, _analyze_nutrients_for_disease,
    _get_adjustment_suggestions, py_le, py_ge, py_gt.
  destruct (bool_decide (disease = u "Tiểu đường")).
  { destruct (as_number (get_or_zero nutrition (u "carbs"))) as [q|];
      cbn [mbind outcome_bind]; [intros _|intros Hs; discriminate Hs].
    destruct (bool_decide (q ≤ Qc_of_Z 30)%Qc), (bool_decide (q ≤ Qc_of_Z 50)%Qc);
      cbn [mbind outcome_bind]; eexists _, _; split; reflexivity. }
  destruct (bool_decide (disease = u "Béo phì")).
  { destruct (as_number (get_or_zero nutrition (u "calories"))) as [q|];
      cbn [mbind outcome_bind]; [intros _|intros Hs; discriminate Hs].
    destruct (bool_decide (q ≤ Qc_of_Z 200)%Qc), (bool_decide (q ≤ Qc_of_Z 400)%Qc);
      cbn [mbind outcome_bind]; eexists _, _; split; reflexivity. }
  destruct (bool_decide (disease = u "Huyết áp cao"));
    intros _; eexists _, _; split; reflexivity.
Qed.

Lemma analysis_answer_score disease food_name portion_size nutrition score
    breakdown suggestions :
  analysis_answer disease food_name portion_size nutrition score breakdown
    suggestions !! u "điểm_số" = Some (PInt score).
Proof.
  unfold analysis_answer. rewrite lookup_dict_literal. cbn [assoc].
  eval_literal_tests. reflexivity.
Qed.

Lemma analysis_answer_tier disease food_name portion_size nutrition score
    breakdown suggestions :
  analysis_answer disease food_name portion_size nutrition score breakdown
    suggestions !! u "mức_độ_an_toàn"
  = Some (PStr (tier_label (tier_of_score score))).
Proof.
  unfold analysis_answer. rewrite lookup_dict_literal. cbn [assoc].
  eval_literal_tests. reflexivity.
Qed.

Lemma analysis_answer_facts disease food_name portion_size nutrition score
    breakdown suggestions :
  analysis_answer disease food_name portion_size nutrition score breakdown
    suggestions !! u "thông_tin_món_ăn"
  = Some (PDict (dict_literal [
      (u "tên", PStr food_name);
      (u "khẩu_phần", PStr portion_size);
      (u "dinh_dưỡng_chi_tiết", PDict nutrition)])).
Proof.
  unfold analysis_answer. rewrite lookup_dict_literal. cbn [assoc].
  eval_literal_tests. reflexivity.
Qed.

Lemma analysis_answer_breakdown disease food_name portion_size nutrition
    score breakdown suggestions :
  analysis_answer disease food_name portion_size nutrition score breakdown
    suggestions !! u "đánh_giá_từng_chất" = Some (PDict breakdown).
Proof.
  unfold analysis_answer. rewrite lookup_dict_literal. cbn [assoc].
  eval_literal_tests. reflexivity.
Qed.

Lemma analyze_food_scored disease food_name portion_size nutrition s :
  resolved_nutrition food_name = Some nutrition →
  _calculate_safety_score nutrition disease = Returns s →
  ∃ breakdown suggestions,
    _analyze_nutrients_for_disease nutrition disease = Returns breakdown
    ∧ _analyze_food_for_disease disease food_name portion_size
      = Returns (analysis_answer disease food_name portion_size nutrition
                   s breakdown suggestions).
Proof.
  intros Hres Hs.
  destruct (scored_then_analysed _ _ _ Hs) as (b & g & Hb & Hg).
  exists b, g. split; [exact Hb|].
  rewrite (analyze_food_resolved _ _ _ _ Hres), Hs, Hb, Hg. reflexivity.
Qed.

End Analysis.

(** *** Tiers *)

Lemma tier_label_inj (t t' : SafetyTier) :
  tier_label t = tier_label t' → t = t'.
Proof.
  destruct t, t'; intros Heq; try reflexivity;
    vm_compute in Heq; discriminate Heq.
Qed.

Lemma tier_reported_iff (t t' : SafetyTier) :
  Some (PStr (tier_label t)) = Some (PStr (tier_label t')) ↔ t = t'.
Proof.
  split; [|intros ->; reflexivity].
  intros Heq. apply tier_label_inj.
  apply (f_equal (λ o, match o with Some (PStr x) => x | _ => [] end)) in Heq.
  exact Heq.
Qed.

Lemma tier_of_score_cases (score : Z) :
  (tier_of_score score = Safe ↔ 80 ≤ score)%Z
  ∧ (tier_of_score score = Acceptable ↔ 60 ≤ score < 80)%Z
  ∧ (tier_of_score score = Restricted ↔ score < 60)%Z.
Proof.
  unfold tier_of_score.
  destruct (Z.leb_spec 80 score), (Z.leb_spec 60 score);
    split_and!; split; intros; (congruence || lia).
Qed.

(** *** The dispatcher *)

Lemma DISEASE_MAP_values_canonical :
  Forall (λ item, ∃ c, item.2 = canonical_name c) DISEASE_MAP_items.
Proof.
  repeat constructor;
    first [ by (exists Diabetes; vm_compute)
          | by (exists Obesity; vm_compute)
          | by (exists Hypertension; vm_compute) ].
Qed.

Lemma normalize_canonical (disease d : pystr) :
  _normalize_disease_name disease = Some d → ∃ c, d = canonical_name c.
Proof.
  unfold _normalize_disease_name, DISEASE_MAP.
  rewrite lookup_dict_literal. intros Hd%assoc_Some_elem.
  exact (proj1 (Forall_forall _ _) DISEASE_MAP_values_canonical _ Hd).
Qed.

Lemma canonical_name_truthy (c : DiseaseCategory) :
  truthy (PStr (canonical_name c)) = true.
Proof. destruct c; vm_compute; reflexivity. Qed.

Section Dispatch.
Context `{DatabaseHelpers} `{Formatter}.

Lemma run_unknown disease food_name portion_size :
  _normalize_disease_name disease = None →
  _run disease food_name portion_size
  = Returns (_create_error_response disease).
Proof. unfold _run. intros ->. reflexivity. Qed.

Lemma run_food disease d food_name portion_size :
  _normalize_disease_name disease = Some d →
  food_name_given (Some food_name) = true →
  _run disease (Some food_name) portion_size
  = _analyze_food_for_disease d food_name portion_size.
Proof.
  unfold _run. intros Hd Hfood. rewrite Hd, Hfood.
  destruct (normalize_canonical _ _ Hd) as [c ->].
  rewrite canonical_name_truthy. reflexivity.
Qed.

Lemma run_general disease d food_name portion_size :
  _normalize_disease_name disease = Some d →
  food_name_given food_name = false →
  _run disease food_name portion_size = _get_general_health_advice d.
Proof.
  unfold _run. intros Hd Hfood. rewrite Hd, Hfood.
  destruct (normalize_canonical _ _ Hd) as [c ->].
  rewrite canonical_name_truthy. reflexivity.
Qed.

End Dispatch.

(** *** Tier consistency *)

(** C2: whenever the food analysis has nutrition facts and the scorer
    computes a score for them, the result carries that score, and its
    tier headline is the Safe one exactly when the score is at least 80,
    the Acceptable one exactly when it lies in 60..79, and the Restricted
    one exactly when it is below 60. *)
Theorem safety_tier_follows_score `{DatabaseHelpers} `{Formatter}
    (disease food_name portion_size : pystr)
    (nutrition : gmap pystr pyval) (s : Z) :
  resolved_nutrition food_name = Some nutrition →
  _calculate_safety_score nutrition disease = Returns s →
  ∃ r,
    _analyze_food_for_disease disease food_name portion_size = Returns r
    ∧ r !! u "điểm_số" = Some (PInt s)
    ∧ (r !! u "mức_độ_an_toàn" = Some (PStr (tier_label Safe))
       ↔ (80 ≤ s)%Z)
    ∧ (r !! u "mức_độ_an_toàn" = Some (PStr (tier_label Acceptable))
       ↔ (60 ≤ s < 80)%Z)
    ∧ (r !! u "mức_độ_an_toàn" = Some (PStr (tier_label Restricted))
       ↔ (s < 60)%Z).
Proof.
  intros Hres Hs.
  destruct (analyze_food_scored disease food_name portion_size _ _ Hres Hs)
    as (b & g & _ & Hrun).
  eexists. split; [exact Hrun|].
  rewrite analysis_answer_score, analysis_answer_tier.
  destruct (tier_of_score_cases s) as (Hsafe & Hacc & Hrestr).
  rewrite !tier_reported_iff. split_and!; [reflexivity|exact Hsafe|exact Hacc|exact Hrestr].
Qed.

Lemma safety_tier_follows_score_witness :
  ∃ r,
    _analyze_food_for_disease (H := empty_database) (H0 := blank_formatter)
      (canonical_name Diabetes) (u "phở bò") (u "1 phần") = Returns r
    ∧ r !! u "điểm_số" = Some (PInt 75)
    ∧ (r !! u "mức_độ_an_toàn" = Some (PStr (tier_label Safe))
       ↔ (80 ≤ 75)%Z)
    ∧ (r !! u "mức_độ_an_toàn" = Some (PStr (tier_label Acceptable))
       ↔ (60 ≤ 75 < 80)%Z)
    ∧ (r !! u "mức_độ_an_toàn" = Some (PStr (tier_label Restricted))
       ↔ (75 < 60)%Z).
Proof.
  apply (@safety_tier_follows_score empty_database blank_formatter
           (canonical_name Diabetes) (u "phở bò") (u "1 phần")
           (dict_literal [
              (u "calories", PInt 450); (u "protein", PInt 30);
              (u "carbs", PInt 45); (u "fat", PInt 15);
              (u "category", PStr (u "phở"))]) 75%Z).
  - vm_compute. reflexivity.
  - vm_compute. reflexivity.
Defined.

(** *** Unknown foods *)

Lemma insufficient_data_keys (food_name key : pystr) :
  key ≠ u "lỗi" → key ≠ u "gợi_ý" → insufficient_data food_name !! key = None.
Proof.
  intros H1 H2. unfold insufficient_data. rewrite lookup_dict_literal.
  cbn [assoc]. rewrite !bool_decide_eq_false_2 by congruence. reflexivity.
Qed.

(** C6: for a recognized disease and a supplied food name that neither the
    database nor the fallback table resolves, the advisor returns the
    insufficient-data answer: an error message naming the food and a
    hint, with no score, no tier, no nutrition facts and no breakdown. *)
Theorem unknown_food_is_insufficient_data `{DatabaseHelpers} `{Formatter}
    (disease d food_name portion_size : pystr) :
  _normalize_disease_name disease = Some d →
  food_name_given (Some food_name) = true →
  truthy_dict (get_food_nutrition food_name) = false →
  _get_fallback_nutrition food_name = None →
  _run disease (Some food_name) portion_size
  = Returns (insufficient_data food_name)
  ∧ insufficient_data food_name !! u "lỗi"
    = Some (PStr (u "Không tìm thấy thông tin dinh dưỡng cho '"
                  ++ food_name ++ u "'"))
  ∧ insufficient_data food_name !! u "điểm_số" = None
  ∧ insufficient_data food_name !! u "mức_độ_an_toàn" = None
  ∧ insufficient_data food_name !! u "thông_tin_món_ăn" = None
  ∧ insufficient_data food_name !! u "đánh_giá_từng_chất" = None
  ∧ insufficient_data food_name !! u "bạn_nhập" = None.
Proof.
  intros Hd Hfood Hdb Hfb. split_and!.
  - rewrite (run_food _ _ _ _ Hd Hfood). apply analyze_food_unresolved.
    unfold resolved_nutrition. rewrite Hdb, Hfb. reflexivity.
  - unfold insufficient_data. rewrite lookup_dict_literal. cbn [assoc].
    eval_literal_tests. reflexivity.
  - apply insufficient_data_keys; intros Heq; vm_compute in Heq; discriminate Heq.
  - apply insufficient_data_keys; intros Heq; vm_compute in Heq; discriminate Heq.
  - apply insufficient_data_keys; intros Heq; vm_compute in Heq; discriminate Heq.
  - apply insufficient_data_keys; intros Heq; vm_compute in Heq; discriminate Heq.
  - apply insufficient_data_keys; intros Heq; vm_compute in Heq; discriminate Heq.
Qed.

Lemma unknown_food_is_insufficient_data_witness :
  _run (H := empty_database) (H0 := blank_formatter)
    (u "Tiểu Đường") (Some (u "món không tồn tại")) (u "1 phần")
  = Returns (insufficient_data (u "món không tồn tại")).
Proof.
  apply (@unknown_food_is_insufficient_data empty_database blank_formatter
           (u "Tiểu Đường") (u "Tiểu đường") (u "món không tồn tại")
           (u "1 phần"));
    vm_compute; reflexivity.
Defined.

(** *** Negative nutrient values *)

(** C7, as stated, fails: a row with calories -100 is not rejected; the
    analysis scores it (carbs 10 gives +20, calories -100 passes the
    "at most 400" test for +15) and reports 85. *)
Lemma negative_calories_are_not_rejected :
  resolved_nutrition (H := sample_database) (u "canh chua")
  = Some negative_row
  ∧ nutrient negative_row (u "calories") = Some (Qc_of_Z (-100))
  ∧ (r ← _analyze_food_for_disease (H := sample_database)
           (H0 := blank_formatter) (canonical_name Diabetes)
           (u "canh chua") (u "1 phần");
     Returns (r !! u "điểm_số"))
    = Returns (Some (PInt 85)).
Proof. split_and!; vm_compute; reflexivity. Qed.

(** C7, amended: the food analysis makes no sign check.  For nutrition
    facts whose nutrients are numbers, one of them negative, it returns a
    result that carries the facts as resolved, the reference score
    evaluated at those values, and the tier of that score. *)
Theorem negative_values_are_scored `{DatabaseHelpers} `{Formatter}
    (c : DiseaseCategory) (food_name portion_size : pystr)
    (nutrition : gmap pystr pyval) (cal pro carb fat : Qc) :
  resolved_nutrition food_name = Some nutrition →
  nutrient nutrition (u "calories") = Some cal →
  nutrient nutrition (u "protein") = Some pro →
  nutrient nutrition (u "carbs") = Some carb →
  nutrient nutrition (u "fat") = Some fat →
  (cal < 0 ∨ pro < 0 ∨ carb < 0 ∨ fat < 0)%Qc →
  let s := spec_score c cal pro carb fat
             (category_in_low_sodium_list nutrition) in
  ∃ r,
    _analyze_food_for_disease (canonical_name c) food_name portion_size
    = Returns r
    ∧ r !! u "điểm_số" = Some (PInt s)
    ∧ r !! u "mức_độ_an_toàn" = Some (PStr (tier_label (tier_of_score s)))
    ∧ r !! u "thông_tin_món_ăn"
      = Some (PDict (dict_literal [
          (u "tên", PStr food_name);
          (u "khẩu_phần", PStr portion_size);
          (u "dinh_dưỡng_chi_tiết", PDict nutrition)])).
Proof.
  intros Hres Hcal Hpro Hcarb Hfat _ s.
  pose proof (score_canonical nutrition c _ _ _ _ Hcal Hpro Hcarb Hfat) as Hs.
  destruct (analyze_food_scored (canonical_name c) food_name portion_size
              _ _ Hres Hs) as (b & g & _ & Hrun).
  eexists. split; [exact Hrun|].
  rewrite analysis_answer_score, analysis_answer_tier, analysis_answer_facts.
  split_and!; reflexivity.
Qed.

Lemma negative_values_are_scored_witness :
  ∃ r,
    _analyze_food_for_disease (H := sample_database) (H0 := blank_formatter)
      (canonical_name Diabetes) (u "canh chua") (u "1 phần") = Returns r
    ∧ r !! u "điểm_số"
      = Some (PInt (spec_score Diabetes (Qc_of_Z (-100)) (Qc_of_Z 12)
                      (Qc_of_Z 10) (Qc_of_Z 3)
                      (category_in_low_sodium_list negative_row)))
    ∧ r !! u "mức_độ_an_toàn"
      = Some (PStr (tier_label (tier_of_score
                (spec_score Diabetes (Qc_of_Z (-100)) (Qc_of_Z 12)
                   (Qc_of_Z 10) (Qc_of_Z 3)
                   (category_in_low_sodium_list negative_row)))))
    ∧ r !! u "thông_tin_món_ăn"
      = Some (PDict (dict_literal [
          (u "tên", PStr (u "canh chua"));
          (u "khẩu_phần", PStr (u "1 phần"));
          (u "dinh_dưỡng_chi_tiết", PDict negative_row)])).
Proof.
  apply (@negative_values_are_scored sample_database blank_formatter
           Diabetes (u "canh chua") (u "1 phần") negative_row
           (Qc_of_Z (-100)) (Qc_of_Z 12) (Qc_of_Z 10) (Qc_of_Z 3)).
  - vm_compute. reflexivity.
  - vm_compute. reflexivity.
  - vm_compute. reflexivity.
  - vm_compute. reflexivity.
  - vm_compute. reflexivity.
  - left. reflexivity.
Defined.

(** *** The general advice *)

Lemma strip_blank (s : pystr) : forallb isspace s = true → strip s = [].
Proof.
  intros Hs. unfold strip.
  assert (lstrip s = []) as ->; [|reflexivity].
  induction s as [|c s IH]; [reflexivity|].
  cbn [forallb] in Hs. apply andb_true_iff in Hs as [Hc Hs].
  cbn [lstrip]. rewrite Hc. auto.
Qed.

Lemma food_name_given_blank (s : pystr) :
  forallb isspace s = true → food_name_given (Some s) = false.
Proof.
  intros Hs. unfold food_name_given. rewrite (strip_blank _ Hs).
  apply andb_false_r.
Qed.

Section GeneralAdvice.
Context `{DatabaseHelpers} `{Formatter}.

(** One conditional update [if cond: result[key] = value]. *)
Lemma update_step (cond : bool) (value : outcome pyval) (key : pystr)
    (result r : gmap pystr pyval) :
  (if cond then v ← value; Returns (<[key := v]> result)
   else Returns result) = Returns r →
  (∀ k, k ≠ key → r !! k = result !! k)
  ∧ (r !! key = result !! key
     ∨ ∃ v, value = Returns v ∧ r !! key = Some v).
Proof.
  destruct cond.
  - destruct value as [v|]; cbn [mbind outcome_bind];
      [|intros Hr; discriminate Hr].
    intros [= <-]. split.
    + intros k Hk. by rewrite lookup_insert_ne.
    + right. exists v. by rewrite lookup_insert_eq.
  - intros [= <-]. split; [reflexivity|by left].
Qed.

Lemma general_advice_steps disease r :
  _get_general_health_advice disease = Returns r →
  (∀ k, k ∉ rule_keys → r !! k = base_advice disease !! k)
  ∧ (∀ v, r !! u "tránh_hoàn_toàn" = Some v →
       ∃ src, py_slice_to 5 src = Returns v)
  ∧ (∀ v, r !! u "khuyến_khích" = Some v →
       ∃ src, py_slice_to 5 src = Returns v).
Proof.
  unfold _get_general_health_advice. fold (base_advice disease).
  assert (Hbase : ∀ k, k ∈ rule_keys → base_advice disease !! k = None).
  { intros k Hk. unfold base_advice. rewrite lookup_dict_literal.
    cbn [assoc]. unfold rule_keys in Hk.
    repeat (apply elem_of_cons in Hk as [->|Hk];
            [eval_literal_tests; reflexivity|]).
    by apply elem_of_nil in Hk. }
  assert (Hne : ∀ k k', k ∉ rule_keys → k' ∈ rule_keys → k ≠ k')
    by (intros k k' Hk Hk' ->; contradiction).
  assert (Hkeys : u "hướng_dẫn_chi_tiết" ∈ rule_keys
                  ∧ u "tránh_hoàn_toàn" ∈ rule_keys
                  ∧ u "khuyến_khích" ∈ rule_keys
                  ∧ u "giới_hạn_calo_ngày" ∈ rule_keys).
  { split_and!; by_evaluation. }
  destruct Hkeys as (K1 & K2 & K3 & K4).
  generalize dependent (base_advice disease). intros result Hbase.
  destruct (get_disease_rules disease) as [rules|];
    [destruct (truthy (PDict rules))|].
  2,3: intros [= <-]; split_and!;
    [reflexivity
    |intros v Hv; rewrite (Hbase _ K2) in Hv; discriminate Hv
    |intros v Hv; rewrite (Hbase _ K3) in Hv; discriminate Hv].
  match goal with
  | |- mbind _ ?s1 = _ → _ => destruct s1 as [r1|] eqn:E1
  end; cbn [mbind outcome_bind]; [|intros Hr; discriminate Hr].
  match goal with
  | |- mbind _ ?s2 = _ → _ => destruct s2 as [r2|] eqn:E2
  end; cbn [mbind outcome_bind]; [|intros Hr; discriminate Hr].
  match goal with
  | |- mbind _ ?s3 = _ → _ => destruct s3 as [r3|] eqn:E3
  end; cbn [mbind outcome_bind]; [|intros Hr; discriminate Hr].
  apply update_step in E1 as [N1 _].
  apply update_step in E2 as [N2 S2].
  apply update_step in E3 as [N3 S3].
  assert (D23 : u "tránh_hoàn_toàn" ≠ u "khuyến_khích") by by_evaluation.
  assert (D24 : u "tránh_hoàn_toàn" ≠ u "giới_hạn_calo_ngày") by by_evaluation.
  assert (D34 : u "khuyến_khích" ≠ u "giới_hạn_calo_ngày") by by_evaluation.
  assert (D21 : u "tránh_hoàn_toàn" ≠ u "hướng_dẫn_chi_tiết") by by_evaluation.
  assert (D32 : u "khuyến_khích" ≠ u "tránh_hoàn_toàn") by by_evaluation.
  assert (D31 : u "khuyến_khích" ≠ u "hướng_dẫn_chi_tiết") by by_evaluation.
  intros Hr.
  assert (Hlast' : ∀ k, k ≠ u "giới_hạn_calo_ngày" → r !! k = r3 !! k).
  { intros k Hk.
    destruct (truthy (dict_get rules (u "max_daily_calories") PNone));
      injection Hr as <-; [by rewrite lookup_insert_ne|reflexivity]. }
  split_and!.
  - intros k Hk.
    rewrite (Hlast' k (Hne _ _ Hk K4)), (N3 k (Hne _ _ Hk K3)),
      (N2 k (Hne _ _ Hk K2)), (N1 k (Hne _ _ Hk K1)).
    reflexivity.
  - intros v. rewrite (Hlast' _ D24), (N3 _ D23).
    destruct S2 as [S2|(v' & Hv' & S2)]; rewrite S2.
    + rewrite (N1 _ D21), (Hbase _ K2). intros Hv; discriminate Hv.
    + intros [= <-]. eauto.
  - intros v. rewrite (Hlast' _ D34).
    destruct S3 as [S3|(v' & Hv' & S3)]; rewrite S3.
    + rewrite (N2 _ D32), (N1 _ D31), (Hbase _ K3).
      intros Hv; discriminate Hv.
    + intros [= <-]. eauto.
Qed.

Lemma update_step_raises (cond : bool) (value : outcome pyval) (key : pystr)
    (result : gmap pystr pyval) :
  (if cond then v ← value; Returns (<[key := v]> result)
   else Returns result) = Raises →
  cond = true ∧ value = Raises.
Proof.
  destruct cond; [|intros Hr; discriminate Hr].
  destruct value; cbn [mbind outcome_bind]; intros Hr;
    [discriminate Hr|split; reflexivity].
Qed.

Lemma truncate_guidelines_str (s : pystr) :
  ∃ v, truncate_guidelines (PStr s) = Returns v.
Proof.
  unfold truncate_guidelines. cbn [py_len mbind outcome_bind].
  destruct (300 <? length s)%nat; cbn [py_slice_to py_add_str mbind outcome_bind];
    eexists; reflexivity.
Qed.

Lemma sliceable_slice (v : pyval) :
  sliceable v = true → truthy v = true → ∃ w, py_slice_to 5 v = Returns w.
Proof.
  unfold sliceable. intros Hs Hv. rewrite Hv in Hs. cbn [negb orb] in Hs.
  destruct v; try discriminate Hs; cbn [py_slice_to]; eexists; reflexivity.
Qed.

Lemma general_advice_returns disease :
  match get_disease_rules disease with
  | Some rules => well_typed_rules rules = true
  | None => True
  end →
  ∃ r, _get_general_health_advice disease = Returns r.
Proof.
  unfold _get_general_health_advice. fold (base_advice disease).
  generalize (base_advice disease). intros result.
  destruct (get_disease_rules disease) as [rules|]; [|eexists; reflexivity].
  destruct (truthy (PDict rules)); [|eexists; reflexivity].
  unfold well_typed_rules.
  intros [[Hg Ha]%andb_true_iff Hr]%andb_true_iff.
  match goal with
  | |- ∃ r, mbind _ ?s1 = _ => destruct s1 as [r1|] eqn:E1
  end; cbn [mbind outcome_bind].
  2:{ apply update_step_raises in E1 as [Hc E1]. rewrite Hc in Hg.
      cbn [negb orb] in Hg.
      destruct (dict_get rules (u "guidelines") PNone) as [| | | |g| |];
        try discriminate Hg.
      destruct (truncate_guidelines_str g) as [v Hv]. rewrite Hv in E1.
      discriminate E1. }
  match goal with
  | |- ∃ r, mbind _ ?s2 = _ => destruct s2 as [r2|] eqn:E2
  end; cbn [mbind outcome_bind].
  2:{ apply update_step_raises in E2 as [Hc E2].
      destruct (sliceable_slice _ Ha Hc) as [v Hv]. rewrite Hv in E2.
      discriminate E2. }
  match goal with
  | |- ∃ r, mbind _ ?s3 = _ => destruct s3 as [r3|] eqn:E3
  end; cbn [mbind outcome_bind].
  2:{ apply update_step_raises in E3 as [Hc E3].
      destruct (sliceable_slice _ Hr Hc) as [v Hv]. rewrite Hv in E3.
      discriminate E3. }
  eexists; reflexivity.
Qed.

Lemma slice_length (v w : pyval) :
  py_slice_to 5 v = Returns w → ∃ n, py_len w = Returns n ∧ n ≤ 5.
Proof.
  destruct v; cbn [py_slice_to]; intros Hw; try discriminate Hw;
    injection Hw as <-; cbn [py_len]; eexists; (split; [reflexivity|]);
    rewrite length_take; lia.
Qed.

Lemma base_advice_restricted disease :
  base_advice disease !! u "hạn_chế_nghiêm_ngặt"
  = Some (PList (PStr <$> _get_restricted_foods disease)).
Proof.
  unfold base_advice. rewrite lookup_dict_literal. cbn [assoc].
  eval_literal_tests. reflexivity.
Qed.

Lemma base_advice_recommended disease :
  base_advice disease !! u "nên_ăn_nhiều"
  = Some (PList (PStr <$> _get_recommended_foods disease)).
Proof.
  unfold base_advice. rewrite lookup_dict_literal. cbn [assoc].
  eval_literal_tests. reflexivity.
Qed.

Lemma base_advice_disease disease :
  base_advice disease !! u "bệnh" = Some (PStr disease).
Proof.
  unfold base_advice. rewrite lookup_dict_literal. cbn [assoc].
  eval_literal_tests. reflexivity.
Qed.

Lemma fixed_lists_have_seven_items (c : DiseaseCategory) :
  length (_get_restricted_foods (canonical_name c)) = 7
  ∧ length (_get_recommended_foods (canonical_name c)) = 7.
Proof. destruct c; split; vm_compute; reflexivity. Qed.

End GeneralAdvice.

(** *** Sizes of the advice lists *)

(** C9, as stated, fails: with an empty database the "strictly restrict"
    list of the general advice for diabetes holds seven foods. *)
Lemma restricted_list_exceeds_five :
  (r ← _get_general_health_advice (H := empty_database)
         (canonical_name Diabetes);
   Returns (r !! u "hạn_chế_nghiêm_ngặt"))
  = Returns (Some (PList (PStr <$>
      [u "Bánh ngọt"; u "Nước ngọt"; u "Cơm trắng"; u "Bánh mì trắng";
       u "Kẹo"; u "Mật ong"; u "Trái cây ngọt"])))
  ∧ ¬ (length [u "Bánh ngọt"; u "Nước ngọt"; u "Cơm trắng";
               u "Bánh mì trắng"; u "Kẹo"; u "Mật ong"; u "Trái cây ngọt"]
       ≤ 5).
Proof.
  split.
  - vm_compute. reflexivity.
  - cbn [length]. lia.
Qed.

(** C9, amended: for each recognized category the general advice returns
    (on well-typed disease rules), and in every result it returns the two
    hard-coded lists, foods to restrict and foods to prefer, hold exactly
    seven items each; only the lists copied from the database rules,
    when present, are cut to at most five. *)
Theorem general_advice_list_sizes `{DatabaseHelpers} (c : DiseaseCategory) :
  (match get_disease_rules (canonical_name c) with
   | Some rules => well_typed_rules rules = true
   | None => True
   end →
   ∃ r, _get_general_health_advice (canonical_name c) = Returns r)
  ∧ ∀ r, _get_general_health_advice (canonical_name c) = Returns r →
      (∃ l, r !! u "hạn_chế_nghiêm_ngặt" = Some (PList l) ∧ length l = 7)
      ∧ (∃ l, r !! u "nên_ăn_nhiều" = Some (PList l) ∧ length l = 7)
      ∧ (∀ v, r !! u "tránh_hoàn_toàn" = Some v →
           ∃ n, py_len v = Returns n ∧ n ≤ 5)
      ∧ (∀ v, r !! u "khuyến_khích" = Some v →
           ∃ n, py_len v = Returns n ∧ n ≤ 5).
Proof.
  split; [apply general_advice_returns|].
  intros r Hr.
  destruct (general_advice_steps _ _ Hr) as (Hbase & Havoid & Hprefer).
  destruct (fixed_lists_have_seven_items c) as [L1 L2].
  split_and!.
  - eexists. split.
    + rewrite Hbase by by_evaluation. apply base_advice_restricted.
    + rewrite length_fmap. exact L1.
  - eexists. split.
    + rewrite Hbase by by_evaluation. apply base_advice_recommended.
    + rewrite length_fmap. exact L2.
  - intros v Hv. destruct (Havoid v Hv) as [src Hsrc].
    exact (slice_length _ _ Hsrc).
  - intros v Hv. destruct (Hprefer v Hv) as [src Hsrc].
    exact (slice_length _ _ Hsrc).
Qed.

Lemma general_advice_list_sizes_witness :
  ∃ r,
    _get_general_health_advice (H := sample_database)
      (canonical_name Diabetes) = Returns r
    ∧ (∃ l, r !! u "hạn_chế_nghiêm_ngặt" = Some (PList l) ∧ length l = 7)
    ∧ (∃ l, r !! u "nên_ăn_nhiều" = Some (PList l) ∧ length l = 7)
    ∧ (∀ v, r !! u "tránh_hoàn_toàn" = Some v →
         ∃ n, py_len v = Returns n ∧ n ≤ 5)
    ∧ (∀ v, r !! u "khuyến_khích" = Some v →
         ∃ n, py_len v = Returns n ∧ n ≤ 5).
Proof.
  destruct (@general_advice_list_sizes sample_database Diabetes)
    as [Hreturns Hsizes].
  destruct Hreturns as [r Hr].
  - vm_compute. reflexivity.
  - exists r. split; [exact Hr|]. exact (Hsizes r Hr).
Defined.

(** *** Unknown diseases *)

Lemma error_response_input (disease : pystr) :
  _create_error_response disease !! u "bạn_nhập" = Some (PStr disease).
Proof.
  unfold _create_error_response. rewrite lookup_dict_literal. cbn [assoc].
  eval_literal_tests. reflexivity.
Qed.

Lemma error_response_keys (disease key : pystr) :
  key ≠ u "lỗi" → key ≠ u "bạn_nhập" → key ≠ u "gợi_ý" →
  _create_error_response disease !! key = None.
Proof.
  intros H1 H2 H3. unfold _create_error_response.
  rewrite lookup_dict_literal. cbn [assoc].
  rewrite !bool_decide_eq_false_2 by congruence. reflexivity.
Qed.

Lemma general_advice_names_disease `{DatabaseHelpers} (d : pystr) r :
  _get_general_health_advice d = Returns r → r !! u "bệnh" = Some (PStr d).
Proof.
  intros Hr. destruct (general_advice_steps _ _ Hr) as (Hbase & _ & _).
  rewrite Hbase by by_evaluation. apply base_advice_disease.
Qed.

Lemma analysis_never_echoes_disease_input `{DatabaseHelpers} `{Formatter}
    (d f p : pystr) :
  returned_at (u "bạn_nhập") (_analyze_food_for_disease d f p) = None.
Proof.
  destruct (resolved_nutrition f) as [n|] eqn:Hres.
  - rewrite (analyze_food_resolved _ _ _ _ Hres).
    destruct (_calculate_safety_score n d) as [s|];
      cbn [mbind outcome_bind]; [|reflexivity].
    destruct (_analyze_nutrients_for_disease n d) as [b|];
      cbn [mbind outcome_bind]; [|reflexivity].
    destruct (_get_adjustment_suggestions n d) as [g|];
      cbn [mbind outcome_bind]; [|reflexivity].
    cbn [returned_at]. unfold analysis_answer.
    rewrite lookup_dict_literal. cbn [assoc]. eval_literal_tests.
    reflexivity.
  - rewrite (analyze_food_unresolved _ _ _ Hres). cbn [returned_at].
    apply insufficient_data_keys; by_evaluation.
Qed.

(** C5: a disease text the synonym map does not know makes the advisor
    return the error response, whatever food is given: it carries the
    text as entered, its message names each supported category, and it
    is never the general advice or the food analysis of any category. *)
Theorem unknown_disease_is_error `{DatabaseHelpers} `{Formatter}
    (disease : pystr) (food_name : option pystr) (portion_size : pystr) :
  _normalize_disease_name disease = None →
  _run disease food_name portion_size
  = Returns (_create_error_response disease)
  ∧ _create_error_response disease !! u "bạn_nhập" = Some (PStr disease)
  ∧ (∃ msg, _create_error_response disease !! u "lỗi" = Some (PStr msg)
            ∧ ∀ c, contains (canonical_name c) msg = true)
  ∧ (∀ d, _get_general_health_advice d
          ≠ Returns (_create_error_response disease))
  ∧ (∀ d f p, _analyze_food_for_disease d f p
              ≠ Returns (_create_error_response disease)).
Proof.
  intros Hnone. split_and!.
  - by apply run_unknown.
  - apply error_response_input.
  - eexists. split.
    + unfold _create_error_response. rewrite lookup_dict_literal.
      cbn [assoc]. eval_literal_tests. reflexivity.
    + intros c. destruct c; vm_compute; reflexivity.
  - intros d Hr. apply general_advice_names_disease in Hr.
    rewrite error_response_keys in Hr by by_evaluation. discriminate Hr.
  - intros d f p Hr.
    pose proof (analysis_never_echoes_disease_input d f p) as Hecho.
    rewrite Hr in Hecho. cbn [returned_at] in Hecho.
    rewrite error_response_input in Hecho. discriminate Hecho.
Qed.

Lemma unknown_disease_is_error_witness :
  _run (H := empty_database) (H0 := blank_formatter)
    (u "ung thư") (Some (u "phở bò")) (u "1 phần")
  = Returns (_create_error_response (u "ung thư")).
Proof.
  apply (@unknown_disease_is_error empty_database blank_formatter
           (u "ung thư") (Some (u "phở bò")) (u "1 phần")).
  vm_compute. reflexivity.
Defined.

(** *** Blank food names *)

(** C10: for a disease text that normalizes to a category, a food name
    that is empty or made of whitespace only gives the same outcome as no
    food name at all, namely the general advice of the category. *)
Theorem blank_food_name_is_no_food_name `{DatabaseHelpers} `{Formatter}
    (disease d food_name portion_size portion_size' : pystr) :
  _normalize_disease_name disease = Some d →
  forallb isspace food_name = true →
  _run disease (Some food_name) portion_size
  = _run disease None portion_size'
  ∧ _run disease None portion_size' = _get_general_health_advice d.
Proof.
  intros Hd Hblank.
  rewrite (run_general _ _ (Some food_name) _ Hd
             (food_name_given_blank _ Hblank)).
  rewrite (run_general _ _ None _ Hd eq_refl). split; reflexivity.
Qed.

Lemma blank_food_name_is_no_food_name_witness :
  _run (H := sample_database) (H0 := blank_formatter)
    (u " Đái Tháo Đường ") (Some [32; 9; 12288]%N) (u "2 phần")
  = _run (H := sample_database) (H0 := blank_formatter)
      (u " Đái Tháo Đường ") None (u "1 phần")
  ∧ _run (H := sample_database) (H0 := blank_formatter)
      (u " Đái Tháo Đường ") None (u "1 phần")
    = _get_general_health_advice (H := sample_database) (u "Tiểu đường").
Proof.
  apply (@blank_food_name_is_no_food_name sample_database blank_formatter
           (u " Đái Tháo Đường ") (u "Tiểu đường") [32; 9; 12288]%N
           (u "2 phần") (u "1 phần")).
  - vm_compute. reflexivity.
  - vm_compute. reflexivity.
Defined.

(** *** Synonym coverage *)

Lemma DISEASE_MAP_keys_normalized :
  Forall (λ item, _normalize_disease_name item.1 = Some item.2)
    health_advisor.DISEASE_MAP_items.
Proof. by_evaluation. Qed.

Lemma simple_DISEASE_MAP_keys_normalized :
  Forall (λ item,
            health_advisor_simple._normalize_disease_name item.1
            = Some item.2)
    health_advisor_simple.DISEASE_MAP_items.
Proof. by_evaluation. Qed.

Lemma simple_DISEASE_MAP_values :
  Forall (λ item,
            item.2 ∈ [u "Bệnh tim mạch"; canonical_name Diabetes;
                      canonical_name Obesity; canonical_name Hypertension])
    health_advisor_simple.DISEASE_MAP_items.
Proof. by_evaluation. Qed.

(** C4, as stated, fails: the table of health_advisor_simple.py has no
    entry "tăng huyết áp", so that normalizer answers not-found where the
    one of health_advisor.py answers Hypertension. *)
Lemma simple_normalizer_misses_tang_huyet_ap :
  health_advisor_simple._normalize_disease_name (u "tăng huyết áp") = None
  ∧ health_advisor._normalize_disease_name (u "tăng huyết áp")
    = Some (canonical_name Hypertension).
Proof. split; vm_compute; reflexivity. Qed.

(** C4, amended: in each implementation every key of its own synonym
    table normalizes to the category the table gives it (one of the three
    canonical categories in health_advisor.py; those three or the heart
    disease category in health_advisor_simple.py).  Both map
    "đái tháo đường" to Diabetes and "thừa cân" to Obesity;
    "tăng huyết áp" maps to Hypertension in health_advisor.py. *)
Theorem synonym_tables_are_covered :
  (∀ k v, health_advisor.DISEASE_MAP !! k = Some v →
     health_advisor._normalize_disease_name k = Some v
     ∧ ∃ c, v = canonical_name c)
  ∧ (∀ k v, health_advisor_simple.DISEASE_MAP !! k = Some v →
       health_advisor_simple._normalize_disease_name k = Some v
       ∧ (v = u "Bệnh tim mạch" ∨ ∃ c, v = canonical_name c))
  ∧ health_advisor._normalize_disease_name (u "đái tháo đường")
    = Some (canonical_name Diabetes)
  ∧ health_advisor_simple._normalize_disease_name (u "đái tháo đường")
    = Some (canonical_name Diabetes)
  ∧ health_advisor._normalize_disease_name (u "thừa cân")
    = Some (canonical_name Obesity)
  ∧ health_advisor_simple._normalize_disease_name (u "thừa cân")
    = Some (canonical_name Obesity)
  ∧ health_advisor._normalize_disease_name (u "tăng huyết áp")
    = Some (canonical_name Hypertension).
Proof.
  split_and!; try (vm_compute; reflexivity).
  - intros k v. unfold health_advisor.DISEASE_MAP.
    rewrite lookup_dict_literal. intros Hkv%assoc_Some_elem. split.
    + exact (proj1 (Forall_forall _ _) DISEASE_MAP_keys_normalized _ Hkv).
    + exact (proj1 (Forall_forall _ _) DISEASE_MAP_values_canonical _ Hkv).
  - intros k v. unfold health_advisor_simple.DISEASE_MAP.
    rewrite lookup_dict_literal. intros Hkv%assoc_Some_elem. split.
    + exact (proj1 (Forall_forall _ _)
               simple_DISEASE_MAP_keys_normalized _ Hkv).
    + pose proof (proj1 (Forall_forall _ _) simple_DISEASE_MAP_values _ Hkv)
        as Hv. cbn [snd] in Hv.
      apply elem_of_cons in Hv as [->|Hv]; [left; reflexivity|right].
      apply elem_of_cons in Hv as [->|Hv]; [exists Diabetes; reflexivity|].
      apply elem_of_cons in Hv as [->|Hv]; [exists Obesity; reflexivity|].
      apply elem_of_cons in Hv as [->|Hv]; [exists Hypertension; reflexivity|].
      by apply elem_of_nil in Hv.
Qed.

Lemma synonym_tables_are_covered_witness :
  (health_advisor._normalize_disease_name (u "huyết áp cao")
   = Some (u "Huyết áp cao")
   ∧ ∃ c, u "Huyết áp cao" = canonical_name c)
  ∧ (health_advisor_simple._normalize_disease_name (u "tim mạch")
     = Some (u "Bệnh tim mạch")
     ∧ (u "Bệnh tim mạch" = u "Bệnh tim mạch"
        ∨ ∃ c, u "Bệnh tim mạch" = canonical_name c)).
Proof.
  destruct synonym_tables_are_covered as (Hmain & Hsimple & _).
  split.
  - apply Hmain. vm_compute. reflexivity.
  - apply Hsimple. vm_compute. reflexivity.
Defined.

(** *** Missing and null nutrients *)

Lemma nutrient_key_cases (key : pystr) :
  key ∈ nutrient_keys →
  key = u "calories" ∨ key = u "carbs" ∨ key = u "fat" ∨ key = u "protein".
Proof.
  unfold nutrient_keys. intros Hk.
  repeat (apply elem_of_cons in Hk as [->|Hk]; [tauto|]).
  by apply elem_of_nil in Hk.
Qed.

Lemma get_or_zero_absent nutrition key :
  nutrition !! key = None ∨ nutrition !! key = Some PNone →
  get_or_zero nutrition key = PInt 0.
Proof.
  unfold get_or_zero, dict_get. by intros [-> | ->].
Qed.

Lemma get_or_zero_insert_zero nutrition key key' :
  nutrition !! key = None ∨ nutrition !! key = Some PNone →
  get_or_zero (<[key := PInt 0]> nutrition) key' = get_or_zero nutrition key'.
Proof.
  intros Habs. destruct (decide (key = key')) as [<-|Hne].
  - rewrite get_or_zero_insert_eq, (get_or_zero_absent _ _ Habs).
    reflexivity.
  - by apply get_or_zero_insert_ne.
Qed.

Lemma category_insert_nutrient nutrition key v :
  key ∈ nutrient_keys →
  category_in_low_sodium_list (<[key := v]> nutrition)
  = category_in_low_sodium_list nutrition.
Proof.
  intros Hk. unfold category_in_low_sodium_list, dict_get.
  rewrite lookup_insert_ne; [reflexivity|].
  destruct (nutrient_key_cases _ Hk) as [-> | [-> | [-> | ->]]];
    by_evaluation.
Qed.

(** C8, as stated, fails in its last part: for diabetes, facts with no
    carbs entry get exactly the breakdown of facts with carbs 0, the value
    printed as "0g" and nothing that marks it as substituted. *)
Lemma breakdown_has_no_substitution_note :
  (dict_literal [(u "calories", PInt 130); (u "protein", PInt 3)]
     : gmap pystr pyval) !! u "carbs" = None
  ∧ _analyze_nutrients_for_disease (H0 := blank_formatter)
      (dict_literal [(u "calories", PInt 130); (u "protein", PInt 3)])
      (canonical_name Diabetes)
    = _analyze_nutrients_for_disease (H0 := blank_formatter)
        (dict_literal [(u "calories", PInt 130); (u "protein", PInt 3);
                       (u "carbs", PInt 0)])
        (canonical_name Diabetes)
  ∧ _analyze_nutrients_for_disease (H0 := blank_formatter)
      (dict_literal [(u "calories", PInt 130); (u "protein", PInt 3)])
      (canonical_name Diabetes)
    = Returns (dict_literal [
        (u "carbohydrate", PDict (dict_literal [
           (u "giá_trị", PStr (u "0g"));
           (u "giới_hạn", PStr (u "< 50g/bữa"));
           (u "trạng_thái", PStr (u "AN TOÀN"));
           (u "lý_do", PStr (u "Carbs cao làm tăng đường huyết"))]))]).
Proof. split_and!; vm_compute; reflexivity. Qed.

(** C8, amended: a nutrient that is missing or null is read as the
    number 0, so the scorer gives the facts the outcome it gives the same
    facts with an explicit 0 and, when the other nutrients are numbers,
    returns a score for each category; the breakdown is the one of the
    explicit 0 and does not mark the substitution. *)
Theorem missing_nutrient_counts_as_zero `{Formatter}
    (nutrition : gmap pystr pyval) (key disease : pystr) :
  key ∈ nutrient_keys →
  nutrition !! key = None ∨ nutrition !! key = Some PNone →
  nutrient nutrition key = Some (Qc_of_Z 0)
  ∧ _calculate_safety_score nutrition disease
    = _calculate_safety_score (<[key := PInt 0]> nutrition) disease
  ∧ _analyze_nutrients_for_disease nutrition disease
    = _analyze_nutrients_for_disease (<[key := PInt 0]> nutrition) disease
  ∧ ((∀ k, k ∈ nutrient_keys → k ≠ key → is_Some (nutrient nutrition k)) →
     ∀ c, ∃ s, _calculate_safety_score nutrition (canonical_name c)
               = Returns s).
Proof.
  intros Hkey Habs. split_and!.
  - unfold nutrient. rewrite (get_or_zero_absent _ _ Habs). reflexivity.
  - unfold _calculate_safety_score. cbv zeta.
    rewrite !(get_or_zero_insert_zero _ _ _ Habs),
      (category_insert_nutrient _ _ _ Hkey).
    reflexivity.
  - unfold _analyze_nutrients_for_disease. cbv zeta.
    rewrite !(get_or_zero_insert_zero _ _ _ Habs). reflexivity.
  - intros Hothers c.
    assert (Hall : ∀ k, k ∈ nutrient_keys → is_Some (nutrient nutrition k)).
    { intros k Hk. destruct (decide (k = key)) as [->|Hne]; [|by auto].
      unfold nutrient. rewrite (get_or_zero_absent _ _ Habs). by eexists. }
    destruct (Hall (u "calories")) as [cal Hcal]; [by_evaluation|].
    destruct (Hall (u "protein")) as [pro Hpro]; [by_evaluation|].
    destruct (Hall (u "carbs")) as [carb Hcarb]; [by_evaluation|].
    destruct (Hall (u "fat")) as [fat Hfat]; [by_evaluation|].
    eexists. by apply score_canonical.
Qed.

Lemma missing_nutrient_counts_as_zero_witness :
  nutrient (dict_literal [(u "calories", PInt 130); (u "protein", PNone);
                          (u "fat", PInt 1); (u "carbs", PInt 28)])
    (u "protein") = Some (Qc_of_Z 0)
  ∧ _calculate_safety_score
      (dict_literal [(u "calories", PInt 130); (u "protein", PNone);
                     (u "fat", PInt 1); (u "carbs", PInt 28)])
      (canonical_name Hypertension)
    = _calculate_safety_score
        (<[u "protein" := PInt 0]>
           (dict_literal [(u "calories", PInt 130); (u "protein", PNone);
                          (u "fat", PInt 1); (u "carbs", PInt 28)]))
        (canonical_name Hypertension).
Proof.
  destruct (@missing_nutrient_counts_as_zero blank_formatter
              (dict_literal [(u "calories", PInt 130); (u "protein", PNone);
                             (u "fat", PInt 1); (u "carbs", PInt 28)])
              (u "protein") (canonical_name Hypertension))
    as (Hzero & Hscore & _ & _).
  - by_evaluation.
  - right. vm_compute. reflexivity.
  - split; [exact Hzero|exact Hscore].
Defined.

(** ** Further properties of health_advisor.py *)

(** *** The range of the score *)

Ltac split_score_cases H :=
  repeat (first
    [ match type of H with
      | context [bool_decide ?P] => destruct (bool_decide P)
      end
    | match type of H with
      | context [as_number ?v] => destruct (as_number v)
      end
    | match type of H with
      | context [category_in_low_sodium_list ?n] =>
          destruct (category_in_low_sodium_list n)
      end ];
    cbn [mbind outcome_bind] in H).

(** Whatever the facts and whatever the disease string, a score the scorer
    returns lies between 10 and 100; no input reaches the lower end 0 of
    the clamp. *)
Theorem score_between_10_and_100
    (nutrition : gmap pystr pyval) (disease : pystr) (s : Z) :
  _calculate_safety_score nutrition disease = Returns s →
  (10 ≤ s ≤ 100)%Z.
Proof.
  intros Hs. unfold _calculate_safety_score, py_le, py_ge in Hs.
  cbv zeta in Hs. split_score_cases Hs;
    try discriminate Hs; injection Hs as <-; lia.
Qed.

Lemma score_between_10_and_100_witness : (10 ≤ 10 ≤ 100)%Z.
Proof.
  apply (score_between_10_and_100
           (dict_literal [(u "calories", PInt 650); (u "fat", PInt 25)])
           (canonical_name Obesity) 10).
  vm_compute. reflexivity.
Defined.

(** *** Disease names outside the three categories *)

(** Handed a disease string that is none of the three canonical names,
    the scorer answers the base score 50 without reading any nutrient, the
    breakdown is empty and there are no suggestions; none of them raises,
    whatever the facts hold. *)
Theorem unrecognized_disease_gets_defaults `{Formatter}
    (nutrition : gmap pystr pyval) (disease : pystr) :
  (∀ c, disease ≠ canonical_name c) →
  _calculate_safety_score nutrition disease = Returns 50%Z
  ∧ _analyze_nutrients_for_disease nutrition disease = Returns ∅
  ∧ _get_adjustment_suggestions nutrition disease = Returns [].
Proof.
  intros Hne.
  pose proof (Hne Diabetes) as H1. pose proof (Hne Obesity) as H2.
  pose proof (Hne Hypertension) as H3. cbn [canonical_name] in H1, H2, H3.
  unfold _calculate_safety_score, _analyze_nutrients_for_disease,
    _get_adjustment_suggestions. cbv zeta.
  rewrite !(bool_decide_eq_false_2 _ H1), !(bool_decide_eq_false_2 _ H2),
    !(bool_decide_eq_false_2 _ H3).
  split_and!; reflexivity.
Qed.

Lemma unrecognized_disease_gets_defaults_witness :
  _calculate_safety_score
    (dict_literal [(u "calories", PStr (u "nhiều"))]) (u "Gout")
  = Returns 50%Z.
Proof.
  apply (@unrecognized_disease_gets_defaults blank_formatter
           (dict_literal [(u "calories", PStr (u "nhiều"))]) (u "Gout")).
  intros c. destruct c; by_evaluation.
Defined.

(** *** When the scorer raises *)

(** For each category the scorer returns exactly when the nutrients that
    category compares are numbers (a missing or null entry counts as the
    number 0): carbs, protein and calories for Diabetes; calories and fat
    for Obesity; calories and protein for Hypertension.  Any other value
    there, a string for instance, makes the comparison raise. *)
Theorem scorer_returns_iff_compared_nutrients_are_numbers
    (nutrition : gmap pystr pyval) :
  ((∃ s, _calculate_safety_score nutrition (canonical_name Diabetes)
         = Returns s)
   ↔ is_Some (nutrient nutrition (u "carbs"))
     ∧ is_Some (nutrient nutrition (u "protein"))
     ∧ is_Some (nutrient nutrition (u "calories")))
  ∧ ((∃ s, _calculate_safety_score nutrition (canonical_name Obesity)
           = Returns s)
     ↔ is_Some (nutrient nutrition (u "calories"))
       ∧ is_Some (nutrient nutrition (u "fat")))
  ∧ ((∃ s, _calculate_safety_score nutrition (canonical_name Hypertension)
           = Returns s)
     ↔ is_Some (nutrient nutrition (u "calories"))
       ∧ is_Some (nutrient nutrition (u "protein"))).
Proof.
  split_and!; (split;
    [ intros [s Hs];
      unfold _calculate_safety_score, py_le, py_ge in Hs; cbv zeta in Hs;
      cbn [canonical_name] in Hs;
      unfold nutrient;
      repeat match type of Hs with
      | context [bool_decide (u ?a = u ?b)] =>
          let t := constr:(bool_decide (u a = u b)) in
          let v := eval vm_compute in t in
          replace t with v in Hs by (vm_compute; reflexivity)
      end;
      repeat (match type of Hs with
              | context [as_number ?v] => destruct (as_number v)
              | context [bool_decide ?P] => destruct (bool_decide P)
              end; cbn [mbind outcome_bind] in Hs);
      try discriminate Hs; split_and!; eexists; reflexivity
    | ]).
  - intros ([carb Hcarb] & [pro Hpro] & [cal Hcal]). eexists.
    exact (score_diabetes _ _ _ _ (Qc_of_Z 0) false Hcal Hpro Hcarb).
  - intros ([cal Hcal] & [fat Hfat]). eexists.
    exact (score_obesity _ _ (Qc_of_Z 0) (Qc_of_Z 0) _ false Hcal Hfat).
  - intros ([cal Hcal] & [pro Hpro]). eexists.
    exact (score_hypertension _ _ _ (Qc_of_Z 0) (Qc_of_Z 0) Hcal Hpro).
Qed.

Lemma scorer_returns_iff_compared_nutrients_are_numbers_witness :
  ¬ (∃ s, _calculate_safety_score
            (dict_literal [(u "calories", PInt 100);
                           (u "carbs", PStr (u "45"))])
            (canonical_name Diabetes) = Returns s)
  ∧ ∃ s, _calculate_safety_score
           (dict_literal [(u "calories", PInt 100);
                          (u "carbs", PStr (u "45"))])
           (canonical_name Hypertension) = Returns s.
Proof.
  destruct (scorer_returns_iff_compared_nutrients_are_numbers
              (dict_literal [(u "calories", PInt 100);
                             (u "carbs", PStr (u "45"))]))
    as (Hd & _ & Hh).
  split.
  - intros Hs. apply Hd in Hs as ([q Hq] & _).
    vm_compute in Hq. discriminate Hq.
  - apply Hh. split; eexists; vm_compute; reflexivity.
Defined.

(** *** Adjustment suggestions *)

(** The suggestions are never more than three; for the three categories
    there is always one or more, and Diabetes and Obesity give either one or
    three. *)
Theorem suggestions_are_at_most_three
    (nutrition : gmap pystr pyval) (disease : pystr) (g : list pystr) :
  _get_adjustment_suggestions nutrition disease = Returns g →
  length g ≤ 3
  ∧ ((∃ c, disease = canonical_name c) → 1 ≤ length g)
  ∧ (disease = canonical_name Hypertension → length g = 3)
  ∧ length g ≠ 2.
Proof.
  intros Hg. unfold _get_adjustment_suggestions, py_gt in Hg.
  cbv zeta in Hg.
  assert (Hcases :
    (disease = u "Tiểu đường" ∨ disease = u "Béo phì") ∧ (length g = 1 ∨ length g = 3)
    ∨ disease = u "Huyết áp cao" ∧ length g = 3
    ∨ (∀ c, disease ≠ canonical_name c) ∧ length g = 0).
  { repeat (match type of Hg with
            | context [bool_decide ?P] => case_bool_decide
            | context [as_number ?v] => destruct (as_number v)
            end; cbn [mbind outcome_bind] in Hg);
      try discriminate Hg; injection Hg as <-; cbn [app length];
      first [ left; split; [tauto|tauto]
            | right; left; split; [assumption|reflexivity]
            | right; right; split; [|reflexivity];
              intros c; destruct c; assumption ]. }
  split_and!.
  - destruct Hcases as [[_ [->| ->]]|[[_ ->]|[_ ->]]]; lia.
  - intros [c ->].
    destruct Hcases as [[_ [->| ->]]|[[_ ->]|[Hne _]]]; try lia.
    by destruct (Hne c).
  - intros ->.
    destruct Hcases as [[[Hd|Hd] _]|[[_ ->]|[Hne _]]]; try reflexivity.
    + exfalso. revert Hd. by_evaluation.
    + exfalso. revert Hd. by_evaluation.
    + by destruct (Hne Hypertension).
  - destruct Hcases as [[_ [->| ->]]|[[_ ->]|[_ ->]]]; lia.
Qed.

Lemma suggestions_are_at_most_three_witness :
  length [u "Giảm khẩu phần xuống 1/2"; u "Ăn kèm rau xanh để tăng chất xơ";
          u "Thay cơm trắng bằng gạo lứt nếu có"] ≤ 3.
Proof.
  apply (suggestions_are_at_most_three
           (dict_literal [(u "carbs", PInt 46)]) (canonical_name Diabetes)).
  vm_compute. reflexivity.
Defined.

(** *** Whitespace and letter case in disease texts *)

Lemma lstrip_blank (s : pystr) : forallb isspace s = true → lstrip s = [].
Proof.
  induction s as [|c s IH]; [reflexivity|].
  cbn [forallb lstrip]. intros [Hc Hs]%andb_true_iff. rewrite Hc. auto.
Qed.

Lemma lstrip_app_blank (pre s : pystr) :
  forallb isspace pre = true → lstrip (pre ++ s) = lstrip s.
Proof.
  induction pre as [|c pre IH]; [reflexivity|].
  cbn [forallb app lstrip]. intros [Hc Hpre]%andb_true_iff.
  rewrite Hc. auto.
Qed.

Lemma lstrip_app_kept (s post : pystr) :
  lstrip s ≠ [] → lstrip (s ++ post) = lstrip s ++ post.
Proof.
  induction s as [|c s IH]; [intros Hne; by destruct Hne|].
  cbn [app lstrip]. destruct (isspace c); [exact IH|reflexivity].
Qed.

Lemma lstrip_nil_blank (s : pystr) :
  lstrip s = [] → forallb isspace s = true.
Proof.
  induction s as [|c s IH]; [reflexivity|].
  cbn [forallb lstrip]. destruct (isspace c); [exact IH|].
  intros Hs. discriminate Hs.
Qed.

Lemma forallb_reverse (f : N → bool) (s : pystr) :
  forallb f s = true → forallb f (reverse s) = true.
Proof.
  rewrite !forallb_forall. intros Hs c Hc. apply Hs.
  apply (proj1 (list_elem_of_In _ _)).
  apply (proj1 (elem_of_reverse _ _)).
  apply (proj2 (list_elem_of_In _ _)). exact Hc.
Qed.

Lemma rstrip_app_blank (s post : pystr) :
  forallb isspace post = true → rstrip (s ++ post) = rstrip s.
Proof.
  intros Hpost. unfold rstrip. rewrite reverse_app.
  rewrite lstrip_app_blank by (by apply forallb_reverse). reflexivity.
Qed.

Lemma strip_app_blank (pre s post : pystr) :
  forallb isspace pre = true → forallb isspace post = true →
  strip (pre ++ s ++ post) = strip s.
Proof.
  intros Hpre Hpost. unfold strip. rewrite (lstrip_app_blank _ _ Hpre).
  destruct (lstrip s) as [|c r] eqn:Hs.
  - rewrite lstrip_blank; [reflexivity|].
    rewrite forallb_app, Hpost, (lstrip_nil_blank _ Hs). reflexivity.
  - rewrite (lstrip_app_kept s post) by (rewrite Hs; discriminate).
    rewrite Hs. by apply rstrip_app_blank.
Qed.

Lemma isspace_cases (c : N) :
  isspace c = true →
  c ∈ [9; 10; 11; 12; 13; 28; 29; 30; 31; 32; 133; 160; 5760; 8192; 8193;
       8194; 8195; 8196; 8197; 8198; 8199; 8200; 8201; 8202; 8232; 8233;
       8239; 8287; 12288]%N.
Proof.
  unfold isspace.
  rewrite !orb_true_iff, !andb_true_iff, !N.leb_le, !N.eqb_eq.
  intros Hc.
  assert (c = 9 ∨ c = 10 ∨ c = 11 ∨ c = 12 ∨ c = 13 ∨ c = 28 ∨ c = 29
          ∨ c = 30 ∨ c = 31 ∨ c = 32 ∨ c = 133 ∨ c = 160 ∨ c = 5760
          ∨ c = 8192 ∨ c = 8193 ∨ c = 8194 ∨ c = 8195 ∨ c = 8196
          ∨ c = 8197 ∨ c = 8198 ∨ c = 8199 ∨ c = 8200 ∨ c = 8201
          ∨ c = 8202 ∨ c = 8232 ∨ c = 8233 ∨ c = 8239 ∨ c = 8287
          ∨ c = 12288)%N as Hc' by lia.
  clear Hc. repeat (destruct Hc' as [->|Hc']; [by_evaluation|]).
  subst c. by_evaluation.
Qed.

Lemma lower_cp_space (c : N) : isspace c = true → lower_cp c = [c].
Proof.
  intros Hc%isspace_cases.
  repeat (apply elem_of_cons in Hc as [->|Hc]; [vm_compute; reflexivity|]).
  by apply elem_of_nil in Hc.
Qed.

Lemma lower_blank (s : pystr) : forallb isspace s = true → lower s = s.
Proof.
  induction s as [|c s IH]; [reflexivity|].
  cbn [forallb]. intros [Hc Hs]%andb_true_iff.
  unfold lower. cbn [flat_map]. rewrite (lower_cp_space _ Hc).
  fold (lower s). by rewrite (IH Hs).
Qed.

Lemma lower_app (s t : pystr) : lower (s ++ t) = lower s ++ lower t.
Proof. unfold lower. apply flat_map_app. Qed.

(** Whitespace around a disease text does not matter to either
    normalizer: the text with blanks before and after it gets the answer
    of the text alone. *)
Theorem normalizers_ignore_surrounding_whitespace (pre text post : pystr) :
  forallb isspace pre = true →
  forallb isspace post = true →
  health_advisor._normalize_disease_name (pre ++ text ++ post)
  = health_advisor._normalize_disease_name text
  ∧ health_advisor_simple._normalize_disease_name (pre ++ text ++ post)
    = health_advisor_simple._normalize_disease_name text.
Proof.
  intros Hpre Hpost. split.
  - unfold health_advisor._normalize_disease_name.
    by rewrite (strip_app_blank _ _ _ Hpre Hpost).
  - unfold health_advisor_simple._normalize_disease_name. cbv zeta.
    rewrite !lower_app, (lower_blank _ Hpre), (lower_blank _ Hpost).
    by rewrite (strip_app_blank _ _ _ Hpre Hpost).
Qed.

Lemma normalizers_ignore_surrounding_whitespace_witness :
  health_advisor._normalize_disease_name
    ([9; 32]%N ++ u "Béo Phì" ++ [10; 12288]%N)
  = health_advisor._normalize_disease_name (u "Béo Phì")
  ∧ health_advisor_simple._normalize_disease_name
      ([9; 32]%N ++ u "Béo Phì" ++ [10; 12288]%N)
    = health_advisor_simple._normalize_disease_name (u "Béo Phì").
Proof.
  apply (normalizers_ignore_surrounding_whitespace [9; 32]%N (u "Béo Phì")
           [10; 12288]%N); reflexivity.
Defined.

(** The category a normalizer returns is itself a text it accepts, and it
    normalizes to itself: feeding an answer back changes nothing. *)
Theorem normalization_is_idempotent (text d : pystr) :
  (health_advisor._normalize_disease_name text = Some d →
   health_advisor._normalize_disease_name d = Some d)
  ∧ (health_advisor_simple._normalize_disease_name text = Some d →
     d ≠ u "Bệnh tim mạch" →
     health_advisor_simple._normalize_disease_name d = Some d).
Proof.
  split.
  - intros [c ->]%normalize_canonical. destruct c; vm_compute; reflexivity.
  - unfold health_advisor_simple._normalize_disease_name at 1. cbv zeta.
    unfold health_advisor_simple.DISEASE_MAP. rewrite lookup_dict_literal.
    intros Hd%assoc_Some_elem Hheart.
    pose proof (proj1 (Forall_forall _ _) simple_DISEASE_MAP_values _ Hd)
      as Hv. cbn [snd] in Hv.
    apply elem_of_cons in Hv as [->|Hv]; [by destruct Hheart|].
    repeat (apply elem_of_cons in Hv as [->|Hv]; [vm_compute; reflexivity|]).
    by apply elem_of_nil in Hv.
Qed.

Lemma normalization_is_idempotent_witness :
  health_advisor._normalize_disease_name (u "Huyết áp cao")
  = Some (u "Huyết áp cao").
Proof.
  apply (proj1 (normalization_is_idempotent (u "HYPERTENSION")
                  (u "Huyết áp cao"))).
  vm_compute. reflexivity.
Defined.

(** ** Properties of database_helpers.py, and of the advisor on top of it *)

Lemma numeric_facts_insert nutrition key v :
  numeric_facts nutrition → is_Some (as_number v) →
  numeric_facts (<[key := v]> nutrition).
Proof.
  intros Hn [q Hq] k Hk. destruct (decide (key = k)) as [<-|Hne].
  - rewrite (nutrient_insert_eq _ _ _ _ Hq). by eexists.
  - rewrite (nutrient_insert_ne _ _ _ _ Hne). by apply Hn.
Qed.

Lemma numeric_facts_scored nutrition disease :
  numeric_facts nutrition →
  ∃ s, _calculate_safety_score nutrition disease = Returns s.
Proof.
  intros Hn.
  destruct (Hn (u "calories")) as [cal Hcal]; [by_evaluation|].
  destruct (Hn (u "protein")) as [pro Hpro]; [by_evaluation|].
  destruct (Hn (u "carbs")) as [carb Hcarb]; [by_evaluation|].
  destruct (Hn (u "fat")) as [fat Hfat]; [by_evaluation|].
  unfold nutrient in Hcal, Hpro, Hcarb, Hfat.
  unfold _calculate_safety_score, py_le, py_ge. cbv zeta.
  rewrite Hcal, Hpro, Hcarb, Hfat.
  repeat (match goal with
          | |- context [bool_decide ?P] => destruct (bool_decide P)
          end; cbn [mbind outcome_bind]);
    eexists; reflexivity.
Qed.

Section OnSession.
Context `{database_helpers.Session}.

Lemma float_or_zero_number (x : Qc) :
  is_Some (as_number (database_helpers.float_or_zero x)).
Proof.
  unfold database_helpers.float_or_zero.
  destruct (bool_decide (x = Qc_of_Z 0)); by eexists.
Qed.

Lemma record_nutrient_numeric nutrition rel :
  numeric_facts nutrition →
  numeric_facts (database_helpers.record_nutrient nutrition rel).
Proof.
  intros Hn. unfold database_helpers.record_nutrient. cbv zeta.
  repeat (match goal with
          | |- context [if ?b then _ else _] => destruct b
          end;
          [by apply numeric_facts_insert, float_or_zero_number|]).
  exact Hn.
Qed.

Lemma record_nutrient_keeps_name nutrition rel :
  is_Some (nutrition !! u "name") →
  is_Some (database_helpers.record_nutrient nutrition rel !! u "name").
Proof.
  intros Hn. unfold database_helpers.record_nutrient. cbv zeta.
  repeat (match goal with
          | |- context [if ?b then _ else _] => destruct b
          end;
          [rewrite lookup_insert_ne by by_evaluation; exact Hn|]).
  exact Hn.
Qed.

Lemma recorded_nutrients_numeric rels nutrition :
  numeric_facts nutrition → is_Some (nutrition !! u "name") →
  numeric_facts (foldl database_helpers.record_nutrient nutrition rels)
  ∧ is_Some (foldl database_helpers.record_nutrient nutrition rels
               !! u "name").
Proof.
  revert nutrition. induction rels as [|rel rels IH]; intros n Hn Hname.
  - split; assumption.
  - cbn [foldl]. apply IH.
    + by apply record_nutrient_numeric.
    + by apply record_nutrient_keeps_name.
Qed.

Lemma non_empty_truthy (d : gmap pystr pyval) (key : pystr) :
  is_Some (d !! key) → truthy (PDict d) = true.
Proof.
  intros [v Hv]. cbn [truthy]. apply negb_true_iff, Nat.eqb_neq.
  apply map_size_non_empty_iff. intros ->.
  rewrite lookup_empty in Hv. discriminate Hv.
Qed.

Lemma food_row_facts name nutrition :
  database_helpers.get_food_nutrition name = Some nutrition →
  numeric_facts nutrition ∧ truthy (PDict nutrition) = true.
Proof.
  unfold database_helpers.get_food_nutrition.
  destruct (database_helpers.first_food_named_like name) as [[food|]|];
    intros Hn; try discriminate Hn.
  apply (f_equal (default ∅)) in Hn.
  cbv beta iota zeta delta [default from_option id] in Hn. rewrite <- Hn.
  match goal with
  | |- context [foldl _ ?base ?rels] =>
      destruct (recorded_nutrients_numeric rels base) as [Hnum Hname]
  end.
  - intros k Hk. unfold nutrient, get_or_zero, dict_get.
    rewrite lookup_dict_literal. cbn [assoc].
    destruct (nutrient_key_cases _ Hk) as [-> | [-> | [-> | ->]]];
      eval_literal_tests; cbn [default from_option id];
      first [ destruct (float_or_zero_number
                          (database_helpers.calories_per_100g food))
                as [q Hq];
              rewrite (as_number_or_zero _ _ Hq); by eexists
            | by eexists ].
  - rewrite lookup_dict_literal. cbn [assoc]. eval_literal_tests.
    by eexists.
  - split; [exact Hnum|]. by apply (non_empty_truthy _ (u "name")).
Qed.

End OnSession.

(** *** Facts read from the database are always scorable *)

(** Whatever row the food query finds, the dictionary get_food_nutrition
    builds from it is not empty and holds a number (or nothing) under each
    nutrient key, so the scorer returns a score for it under every disease
    string: a database row can never make the scorer raise. *)
Theorem database_facts_are_scorable `{database_helpers.Session}
    (name disease : pystr) (nutrition : gmap pystr pyval) :
  database_helpers.get_food_nutrition name = Some nutrition →
  truthy (PDict nutrition) = true
  ∧ ∃ s, _calculate_safety_score nutrition disease = Returns s.
Proof.
  intros [Hnum Htruthy]%food_row_facts. split; [exact Htruthy|].
  by apply numeric_facts_scored.
Qed.

Lemma database_facts_are_scorable_witness :
  ∃ s, _calculate_safety_score
         (default ∅ (database_helpers.get_food_nutrition
                       (H := one_food_session) (u "canh")))
         (canonical_name Obesity)
       = Returns s.
Proof.
  apply (@database_facts_are_scorable one_food_session (u "canh")
           (canonical_name Obesity)
           (default ∅ (database_helpers.get_food_nutrition
                         (H := one_food_session) (u "canh")))).
  vm_compute. reflexivity.
Defined.

(** *** Disease rules when the database has nothing to say *)

Ltac bool_arith :=
  repeat match goal with
  | H : (_ && _)%bool = true |- _ => apply andb_true_iff in H as [? ?]
  | H : (_ || _)%bool = true |- _ => apply orb_true_iff in H as [?|?]
  | H : (_ && _)%bool = false |- _ => apply andb_false_iff in H as [?|?]
  | H : (_ || _)%bool = false |- _ => apply orb_false_iff in H as [? ?]
  | H : negb _ = true |- _ => apply negb_true_iff in H
  | H : negb _ = false |- _ => apply negb_false_iff in H
  | H : (_ <=? _)%N = true |- _ => apply N.leb_le in H
  | H : (_ <=? _)%N = false |- _ => apply N.leb_gt in H
  | H : (_ =? _)%N = true |- _ => apply N.eqb_eq in H
  | H : (_ =? _)%N = false |- _ => apply N.eqb_neq in H
  end.

Lemma lower_cp_no_capital (c x : N) :
  x ∈ lower_cp c → ¬ (65 ≤ x ≤ 90)%N.
Proof.
  intros Hx Hcap. unfold lower_cp in Hx.
  repeat match type of Hx with
         | context [if ?b then _ else _] => destruct b eqn:?
         end;
    bool_arith;
    repeat (apply elem_of_cons in Hx as [->|Hx]);
    try (by apply elem_of_nil in Hx); lia.
Qed.

Lemma lower_no_capital (s : pystr) (x : N) :
  x ∈ lower s → ¬ (65 ≤ x ≤ 90)%N.
Proof.
  unfold lower. intros Hx.
  apply (proj1 (list_elem_of_In _ _)) in Hx.
  apply in_flat_map in Hx as (c & _ & Hx).
  apply (proj2 (list_elem_of_In _ _)) in Hx.
  by apply (lower_cp_no_capital c).
Qed.

Lemma lower_not_capitalised (s : pystr) (x : N) (rest : pystr) :
  (65 ≤ x ≤ 90)%N → lower s ≠ x :: rest.
Proof.
  intros Hx Heq. apply (lower_no_capital s x); [|exact Hx].
  rewrite Heq. by left.
Qed.

Lemma fallback_rules_well_typed :
  Forall (λ item, well_typed_rules item.2 = true)
    database_helpers.fallback_rules.
Proof. by_evaluation. Qed.

Section RulesOnSession.
Context `{database_helpers.Session} (title : pystr → pystr).

Lemma lowered_name_has_no_fallback_rules (name : pystr) :
  database_helpers._get_fallback_disease_rules (lower name) = None.
Proof.
  unfold database_helpers._get_fallback_disease_rules.
  rewrite lookup_dict_literal. unfold database_helpers.fallback_rules.
  cbn [assoc].
  rewrite !bool_decide_eq_false_2; [reflexivity|..];
    intros Heq; symmetry in Heq; revert Heq;
    match goal with
    | |- lower _ = ?key → False =>
        let k := eval vm_compute in key in
        change key with k
    end;
    apply lower_not_capitalised; lia.
Qed.

Lemma disease_rules_well_typed (name : pystr) :
  match database_helpers.get_disease_rules title name with
  | Some rules => well_typed_rules rules = true
  | None => True
  end.
Proof.
  assert (Hfallback : ∀ x,
    match database_helpers._get_fallback_disease_rules x with
    | Some rules => well_typed_rules rules = true
    | None => True
    end).
  { intros x. unfold database_helpers._get_fallback_disease_rules.
    rewrite lookup_dict_literal.
    destruct (assoc x database_helpers.fallback_rules) as [rules|] eqn:Hx;
      [|exact I].
    apply assoc_Some_elem in Hx.
    exact (proj1 (Forall_forall _ _) fallback_rules_well_typed _ Hx). }
  unfold database_helpers.get_disease_rules. cbv zeta.
  match goal with
  | |- context [database_helpers.first_condition_named_like ?n] =>
      destruct (database_helpers.first_condition_named_like n)
        as [[[condition recommendations]|]|]
  end; [|apply Hfallback|apply Hfallback].
  unfold well_typed_rules, sliceable, dict_get.
  rewrite !lookup_dict_literal. cbn [assoc]. eval_literal_tests.
  cbv beta iota delta [default from_option id].
  destruct (database_helpers.condition_description condition) as [d|],
           (database_helpers.condition_warnings condition) as [w|];
    unfold py_or; cbn [database_helpers.py_of_str];
    repeat (cbn [truthy negb];
            match goal with
            | |- context [bool_decide ?P] => destruct (bool_decide P)
            end);
    cbn [truthy negb orb andb]; reflexivity.
Qed.

End RulesOnSession.

(** When the condition query raises, get_disease_rules has no rules to
    give for any disease name at all: its handler consults the fallback
    table with the stripped, lower-cased name, and every key of that table
    starts with a capital letter. *)
Theorem failed_query_gives_no_rules `{database_helpers.Session}
    (title : pystr → pystr) (name : pystr) :
  (∀ n, database_helpers.first_condition_named_like n = Raises) →
  database_helpers.get_disease_rules title name = None.
Proof.
  intros Hfail. unfold database_helpers.get_disease_rules. cbv zeta.
  rewrite Hfail. apply lowered_name_has_no_fallback_rules.
Qed.

Lemma failed_query_gives_no_rules_witness :
  database_helpers.get_disease_rules (H := failing_session) (λ s, s)
    (u "Béo phì") = None.
Proof.
  apply (@failed_query_gives_no_rules failing_session (λ s, s) (u "Béo phì")).
  intros n. reflexivity.
Defined.

(** When the condition query finds no row, the fallback table is
    consulted with the standardized name.  For the names the advisor
    passes, that gives rules for obesity only: diabetes and hypertension
    are standardized to names the table does not hold, although it has
    rules under all three canonical names. *)
Theorem missing_row_gives_rules_for_obesity_only `{database_helpers.Session}
    (title : pystr → pystr) :
  (∀ n, database_helpers.first_condition_named_like n = Returns None) →
  database_helpers.get_disease_rules title (canonical_name Diabetes) = None
  ∧ database_helpers.get_disease_rules title (canonical_name Hypertension)
    = None
  ∧ database_helpers.get_disease_rules title (canonical_name Obesity)
    = database_helpers._get_fallback_disease_rules (canonical_name Obesity)
  ∧ ∀ c, is_Some (database_helpers._get_fallback_disease_rules
                    (canonical_name c)).
Proof.
  intros Hnone. unfold database_helpers.get_disease_rules. cbv zeta.
  rewrite !Hnone. split_and!.
  - vm_compute. reflexivity.
  - vm_compute. reflexivity.
  - vm_compute. reflexivity.
  - intros c. destruct c; by_evaluation.
Qed.

Lemma missing_row_gives_rules_for_obesity_only_witness :
  database_helpers.get_disease_rules (H := empty_session) (λ s, s)
    (canonical_name Diabetes) = None.
Proof.
  apply (@missing_row_gives_rules_for_obesity_only empty_session (λ s, s)).
  intros n. reflexivity.
Defined.

(** *** Suitable foods *)



(** *** The advisor on the real helpers *)

Lemma numeric_factsb_sound nutrition :
  numeric_factsb nutrition = true → numeric_facts nutrition.
Proof.
  unfold numeric_factsb. rewrite forallb_forall. intros Hall key Hkey.
  apply (proj1 (list_elem_of_In _ _)) in Hkey.
  exact (bool_decide_eq_true_1 _ (Hall key Hkey)).
Qed.

Lemma food_db_numeric :
  Forall (λ item, numeric_factsb item.2 = true) food_db.
Proof. by_evaluation. Qed.

Lemma fuzzy_match_finds_row q items data :
  fuzzy_match q items = Some data →
  ∃ key, (key, data) ∈ items
         ∧ (contains q key || contains key q) = true.
Proof.
  induction items as [|[key d] items IH]; cbn [fuzzy_match];
    [intros Hn; discriminate Hn|].
  destruct (contains q key || contains key q) eqn:Hm.
  - intros [= <-]. exists key. split; [by left|exact Hm].
  - intros (key' & Hin & Hm')%IH. exists key'. split; [by right|exact Hm'].
Qed.

Lemma fuzzy_match_none q items :
  fuzzy_match q items = None →
  ∀ key data, (key, data) ∈ items →
    (contains q key || contains key q) = false.
Proof.
  induction items as [|[key d] items IH]; cbn [fuzzy_match].
  - intros _ key data Hin. by apply elem_of_nil in Hin.
  - destruct (contains q key || contains key q) eqn:Hm;
      [intros Hn; discriminate Hn|].
    intros Hnone key' data' [[= -> ->]|Hin]%elem_of_cons; [exact Hm|].
    by apply (IH Hnone key' data').
Qed.

Section AdvisorOnSession.
Context `{database_helpers.Session} (title : pystr → pystr) `{Formatter}.

Lemma resolved_facts_numeric (food_name : pystr) nutrition :
  resolved_nutrition (H := helpers_on_session title) food_name
  = Some nutrition →
  numeric_facts nutrition.
Proof.
  unfold resolved_nutrition. cbv zeta.
  change (get_food_nutrition (DatabaseHelpers := helpers_on_session title)
            food_name)
    with (database_helpers.get_food_nutrition food_name).
  destruct (truthy_dict (database_helpers.get_food_nutrition food_name))
    eqn:Hdb.
  - rewrite Hdb. intros Hn. by apply (food_row_facts food_name).
  - destruct (truthy_dict (_get_fallback_nutrition food_name));
      [|intros Hn; discriminate Hn].
    unfold _get_fallback_nutrition. cbv zeta.
    intros (key & Hin & _)%fuzzy_match_finds_row.
    apply numeric_factsb_sound.
    exact (proj1 (Forall_forall _ _) food_db_numeric _ Hin).
Qed.

Lemma analysis_on_session_returns (disease food_name portion_size : pystr) :
  ∃ r, _analyze_food_for_disease (H := helpers_on_session title)
         disease food_name portion_size = Returns r.
Proof.
  destruct (resolved_nutrition (H := helpers_on_session title) food_name)
    as [nutrition|] eqn:Hres.
  - destruct (numeric_facts_scored nutrition disease
                (resolved_facts_numeric _ _ Hres)) as [s Hs].
    destruct (analyze_food_scored (H := helpers_on_session title)
                disease food_name portion_size _ _ Hres Hs)
      as (b & g & _ & Hrun).
    eexists. exact Hrun.
  - eexists. by apply analyze_food_unresolved.
Qed.

End AdvisorOnSession.

(** With the helper class that database_helpers.py implements, the advisor
    returns a result for every disease text, food name and portion,
    whatever the database holds and whether or not its queries fail: no
    table row and no fallback entry can make _run raise. *)
Theorem advisor_never_raises `{database_helpers.Session}
    (title : pystr → pystr) `{Formatter}
    (disease : pystr) (food_name : option pystr) (portion_size : pystr) :
  ∃ r, _run (H := helpers_on_session title) disease food_name portion_size
       = Returns r.
Proof.
  destruct (_normalize_disease_name disease) as [d|] eqn:Hd.
  - destruct (food_name_given food_name) eqn:Hfood.
    + destruct food_name as [name|]; [|discriminate Hfood].
      rewrite (run_food (H := helpers_on_session title) _ _ _ _ Hd Hfood).
      apply analysis_on_session_returns.
    + rewrite (run_general (H := helpers_on_session title) _ _ _ _ Hd Hfood).
      apply (general_advice_returns (H := helpers_on_session title)).
      apply disease_rules_well_typed.
  - eexists. by apply run_unknown.
Qed.

(** ** The fallback table of health_advisor.py *)

(** _get_fallback_nutrition answers with a row of its table whose key
    contains the lower-cased name or is contained in it, and such a row
    holds numbers only; it answers None only when no key matches either
    way; and no row is shadowed: each key of the table resolves to its
    own row. *)
Theorem fallback_nutrition_matches_by_substring :
  (∀ name data, _get_fallback_nutrition name = Some data →
     ∃ key, (key, data) ∈ food_db
            ∧ (contains (lower name) key || contains key (lower name)) = true
            ∧ numeric_facts data)
  ∧ (∀ name, _get_fallback_nutrition name = None →
       ∀ key data, (key, data) ∈ food_db →
         contains (lower name) key = false
         ∧ contains key (lower name) = false)
  ∧ (∀ key data, (key, data) ∈ food_db →
       _get_fallback_nutrition key = Some data).
Proof.
  split_and!.
  - intros name data (key & Hin & Hm)%fuzzy_match_finds_row.
    exists key. split_and!; [exact Hin|exact Hm|].
    apply numeric_factsb_sound.
    exact (proj1 (Forall_forall _ _) food_db_numeric _ Hin).
  - intros name Hnone key data Hin.
    apply orb_false_iff.
    exact (fuzzy_match_none _ _ Hnone key data Hin).
  - intros key data Hin. unfold food_db in Hin.
    repeat (apply elem_of_cons in Hin as [Heq|Hin];
            [injection Heq as -> ->; vm_compute; reflexivity|]).
    by apply elem_of_nil in Hin.
Qed.

Lemma fallback_nutrition_matches_by_substring_witness :
  ∃ key, (key, default ∅ (_get_fallback_nutrition (u "Bún Bò")))
           ∈ food_db
         ∧ (contains (lower (u "Bún Bò")) key
            || contains key (lower (u "Bún Bò"))) = true
         ∧ numeric_facts (default ∅ (_get_fallback_nutrition (u "Bún Bò"))).
Proof.
  apply (proj1 fallback_nutrition_matches_by_substring (u "Bún Bò")).
  vm_compute. reflexivity.
Defined.

(** ** Properties of health_advisor_simple.py *)

Lemma find_nutrition_finds_row q items data :
  health_advisor_simple.find_nutrition q items = Some data →
  ∃ key, (key, data) ∈ items.
Proof.
  induction items as [|[key d] items IH];
    cbn [health_advisor_simple.find_nutrition];
    [intros Hn; discriminate Hn|].
  destruct (contains q key || contains key q).
  - intros [= <-]. exists key. by left.
  - intros [key' Hin]%IH. exists key'. by right.
Qed.

Lemma nutrition_db_numeric :
  Forall (λ item, simple_numericb item.2 = true)
    health_advisor_simple.nutrition_db.
Proof. by_evaluation. Qed.

Section Simple.
Context `{Formatter}.

Lemma simple_analysis_returns nutrition disease :
  simple_numericb nutrition = true →
  (∃ a, health_advisor_simple._get_food_analysis nutrition disease
        = Returns a)
  ∧ ∃ r, health_advisor_simple._get_recommendations nutrition disease
         = Returns r.
Proof.
  unfold simple_numericb.
  intros [[[carbs Hcarbs]%bool_decide_eq_true_1
           [calories Hcalories]%bool_decide_eq_true_1]%andb_true_iff
          [sodium Hsodium]%bool_decide_eq_true_1]%andb_true_iff.
  unfold health_advisor_simple._get_food_analysis,
    health_advisor_simple._get_recommendations,
    health_advisor_simple.graded, health_advisor_simple.level_word,
    py_le, py_gt.
  cbv zeta. rewrite Hcarbs, Hcalories, Hsodium.
  split;
    repeat (match goal with
            | |- context [bool_decide ?P] => destruct (bool_decide P)
            end; cbn [mbind outcome_bind]);
    eexists; reflexivity.
Qed.

Lemma simple_food_analysis_returns food_name disease :
  ∃ doc, health_advisor_simple._analyze_food_for_disease food_name disease
         = Returns doc.
Proof.
  unfold health_advisor_simple._analyze_food_for_disease. cbv zeta.
  destruct (health_advisor_simple.find_nutrition (lower food_name)
              health_advisor_simple.nutrition_db) as [row|] eqn:Hrow;
    [|eexists; reflexivity].
  destruct (negb (truthy (PDict row))); [eexists; reflexivity|].
  apply find_nutrition_finds_row in Hrow as [key Hin].
  pose proof (proj1 (Forall_forall _ _) nutrition_db_numeric _ Hin) as Hnum.
  destruct (simple_analysis_returns row disease Hnum) as [[a ->] [r ->]].
  cbn [mbind outcome_bind]. eexists. reflexivity.
Qed.

End Simple.

(** The simplified tool never takes its except branch: for every disease
    text and food name _run hands back a JSON document, never the text
    built from an exception, because the only facts it analyses are rows
    of its own numeric table. *)
Theorem simple_run_never_fails `{Formatter}
    (disease : pystr) (food_name : option pystr) :
  ∃ document,
    health_advisor_simple._run disease food_name
    = health_advisor_simple.Json document.
Proof.
  unfold health_advisor_simple._run. cbv zeta.
  destruct (health_advisor_simple._normalize_disease_name disease) as [d|];
    [|eexists; reflexivity].
  destruct (negb (truthy (PStr d))); [eexists; reflexivity|].
  destruct food_name as [name|]; [|eexists; reflexivity].
  destruct (truthy (PStr name)); [|eexists; reflexivity].
  destruct (simple_food_analysis_returns name d) as [doc ->].
  eexists. reflexivity.
Qed.

(** For heart disease, a category only the simplified tool knows, the
    food analysis ignores the nutrition facts: whatever they hold it gives
    score 50 with the label "Trung bình" and no reason, and there are no
    recommendations.  The same holds for any disease string that is none
    of the three scored categories. *)
Theorem simple_analysis_defaults_outside_three_categories `{Formatter}
    (nutrition : gmap pystr pyval) (disease : pystr) :
  (∀ c, disease ≠ canonical_name c) →
  health_advisor_simple._get_food_analysis nutrition disease
  = Returns (dict_literal [
      (u "điểm_số", PInt 50); (u "mức_độ_an_toàn", PStr (u "Trung bình"))])
  ∧ health_advisor_simple._get_recommendations nutrition disease
    = Returns [].
Proof.
  intros Hne.
  pose proof (Hne Diabetes) as H1. pose proof (Hne Obesity) as H2.
  pose proof (Hne Hypertension) as H3. cbn [canonical_name] in H1, H2, H3.
  unfold health_advisor_simple._get_food_analysis,
    health_advisor_simple._get_recommendations. cbv zeta.
  rewrite !(bool_decide_eq_false_2 _ H1), !(bool_decide_eq_false_2 _ H2),
    !(bool_decide_eq_false_2 _ H3).
  split; reflexivity.
Qed.

Lemma simple_analysis_defaults_outside_three_categories_witness :
  health_advisor_simple._normalize_disease_name (u "Tim Mạch")
  = Some (u "Bệnh tim mạch")
  ∧ health_advisor_simple._get_food_analysis (H := blank_formatter)
      (health_advisor_simple.nutrition_row 650 (PInt 35) 70 (PInt 25) 800)
      (u "Bệnh tim mạch")
    = Returns (dict_literal [
        (u "điểm_số", PInt 50); (u "mức_độ_an_toàn", PStr (u "Trung bình"))]).
Proof.
  split; [vm_compute; reflexivity|].
  apply (@simple_analysis_defaults_outside_three_categories blank_formatter
           (health_advisor_simple.nutrition_row 650 (PInt 35) 70 (PInt 25) 800)
           (u "Bệnh tim mạch")).
  intros c. destruct c; by_evaluation.
Defined.

(** ** Further properties of the general advice *)

Lemma truncated_guidelines_are_short (g v : pyval) :
  truncate_guidelines g = Returns v →
  (∃ n, py_len v = Returns n ∧ n ≤ 303)
  ∧ (∀ s, g = PStr s → length s ≤ 300 → v = PStr s)
  ∧ (∀ s, g = PStr s → 300 < length s → v = PStr (take 300 s ++ u "...")).
Proof.
  unfold truncate_guidelines.
  destruct g as [| | | |s|l|d]; cbn [py_len mbind outcome_bind];
    try (intros Hv; discriminate Hv).
  - destruct (Nat.ltb_spec 300 (length s)) as [Hlong|Hshort];
      cbn [py_slice_to py_add_str mbind outcome_bind];
      intros Hv; injection Hv as <-; split_and!.
    + eexists. split; [reflexivity|].
      rewrite length_app, length_take. cbn [length].
      change (length (u "...")) with 3. lia.
    + intros s' [= <-] Hs'. lia.
    + intros s' [= <-] _. reflexivity.
    + eexists. split; [reflexivity|]. lia.
    + intros s' [= <-] _. reflexivity.
    + intros s' [= <-] Hs'. lia.
  - destruct (Nat.ltb_spec 300 (length l)) as [Hlong|Hshort];
      cbn [py_slice_to py_add_str mbind outcome_bind];
      intros Hv; [discriminate Hv|]. injection Hv as <-. split_and!.
    + eexists. split; [reflexivity|]. lia.
    + intros s Hs. discriminate Hs.
    + intros s Hs. discriminate Hs.
  - destruct (Nat.ltb_spec 300 (size d)) as [Hlong|Hshort];
      cbn [py_slice_to py_add_str mbind outcome_bind];
      intros Hv; [discriminate Hv|]. injection Hv as <-. split_and!.
    + eexists. split; [reflexivity|]. lia.
    + intros s Hs. discriminate Hs.
    + intros s Hs. discriminate Hs.
Qed.

Lemma base_advice_keys `{DatabaseHelpers} (disease key : pystr) :
  is_Some (base_advice disease !! key) →
  key ∈ [u "bệnh"; u "cảnh_báo_nặng_nhất"; u "lời_khuyên_ngắn_gọn";
         u "hạn_chế_nghiêm_ngặt"; u "nên_ăn_nhiều"; u "calo_tối_đa_mỗi_bữa";
         u "thực_phẩm_an_toàn_hôm_nay"].
Proof.
  unfold base_advice. rewrite lookup_dict_literal. cbn [assoc].
  repeat (case_bool_decide as Hk;
          [intros _; rewrite <- Hk; by_evaluation|clear Hk]).
  intros [v Hv]. discriminate Hv.
Qed.

Section MoreGeneralAdvice.
Context `{DatabaseHelpers}.

Lemma general_advice_guidelines disease r v :
  _get_general_health_advice disease = Returns r →
  r !! u "hướng_dẫn_chi_tiết" = Some v →
  ∃ rules,
    get_disease_rules disease = Some rules
    ∧ truncate_guidelines (dict_get rules (u "guidelines") PNone)
      = Returns v.
Proof.
  unfold _get_general_health_advice. fold (base_advice disease).
  assert (Hbase : base_advice disease !! u "hướng_dẫn_chi_tiết" = None).
  { unfold base_advice. rewrite lookup_dict_literal. cbn [assoc].
    eval_literal_tests. reflexivity. }
  generalize dependent (base_advice disease). intros result Hbase.
  destruct (get_disease_rules disease) as [rules|];
    [destruct (truthy (PDict rules))|].
  2,3: intros [= <-] Hv; rewrite Hbase in Hv; discriminate Hv.
  match goal with
  | |- mbind _ ?s1 = _ → _ => destruct s1 as [r1|] eqn:E1
  end; cbn [mbind outcome_bind]; [|intros Hr; discriminate Hr].
  match goal with
  | |- mbind _ ?s2 = _ → _ => destruct s2 as [r2|] eqn:E2
  end; cbn [mbind outcome_bind]; [|intros Hr; discriminate Hr].
  match goal with
  | |- mbind _ ?s3 = _ → _ => destruct s3 as [r3|] eqn:E3
  end; cbn [mbind outcome_bind]; [|intros Hr; discriminate Hr].
  apply update_step in E1 as [_ S1].
  apply update_step in E2 as [N2 _].
  apply update_step in E3 as [N3 _].
  assert (D12 : u "hướng_dẫn_chi_tiết" ≠ u "tránh_hoàn_toàn")
    by by_evaluation.
  assert (D13 : u "hướng_dẫn_chi_tiết" ≠ u "khuyến_khích") by by_evaluation.
  assert (D14 : u "giới_hạn_calo_ngày" ≠ u "hướng_dẫn_chi_tiết")
    by by_evaluation.
  intros Hr.
  assert (Hlast : r !! u "hướng_dẫn_chi_tiết" = r3 !! u "hướng_dẫn_chi_tiết").
  { destruct (truthy (dict_get rules (u "max_daily_calories") PNone));
      injection Hr as <-; [by rewrite lookup_insert_ne|reflexivity]. }
  rewrite Hlast, (N3 _ D13), (N2 _ D12).
  destruct S1 as [S1|(v' & Hv' & S1)]; rewrite S1.
  - rewrite Hbase. intros Hv. discriminate Hv.
  - intros [= <-]. exists rules. split; [reflexivity|exact Hv'].
Qed.

End MoreGeneralAdvice.

(** Whatever the disease rules of the database hold, the general advice
    keeps its seven hard-coded entries exactly as the tool computes them,
    the disease name first among them, and the rules can add no key beyond
    the four reserved for them. *)
Theorem general_advice_keeps_fixed_entries `{DatabaseHelpers}
    (disease : pystr) (r : gmap pystr pyval) :
  _get_general_health_advice disease = Returns r →
  r !! u "bệnh" = Some (PStr disease)
  ∧ r !! u "calo_tối_đa_mỗi_bữa"
    = Some (PInt (_get_max_calories_per_meal disease))
  ∧ (∀ key, key ∉ rule_keys → r !! key = base_advice disease !! key)
  ∧ (∀ key, is_Some (r !! key) →
       key ∈ [u "bệnh"; u "cảnh_báo_nặng_nhất"; u "lời_khuyên_ngắn_gọn";
              u "hạn_chế_nghiêm_ngặt"; u "nên_ăn_nhiều";
              u "calo_tối_đa_mỗi_bữa"; u "thực_phẩm_an_toàn_hôm_nay"]
             ++ rule_keys).
Proof.
  intros Hr. destruct (general_advice_steps _ _ Hr) as (Hbase & _ & _).
  split_and!.
  - rewrite Hbase by by_evaluation. apply base_advice_disease.
  - rewrite Hbase by by_evaluation. unfold base_advice.
    rewrite lookup_dict_literal. cbn [assoc]. eval_literal_tests.
    reflexivity.
  - exact Hbase.
  - intros key Hkey. apply elem_of_app.
    destruct (decide (key ∈ rule_keys)) as [Hin|Hout]; [by right|left].
    rewrite (Hbase _ Hout) in Hkey. by apply (base_advice_keys disease).
Qed.

Lemma general_advice_keeps_fixed_entries_witness :
  match _get_general_health_advice (H := sample_database)
          (canonical_name Diabetes) with
  | Returns r => r
  | Raises => ∅
  end !! u "bệnh" = Some (PStr (canonical_name Diabetes)).
Proof.
  refine (proj1 (@general_advice_keeps_fixed_entries sample_database
                   (canonical_name Diabetes)
                   (match _get_general_health_advice (H := sample_database)
                            (canonical_name Diabetes) with
                    | Returns r => r
                    | Raises => ∅
                    end) _)).
  vm_compute. reflexivity.
Defined.

(** The detailed guideline of the general advice is never longer than 303
    characters: a guideline text of at most 300 characters is copied as it
    is, a longer one is cut to its first 300 characters followed by three
    dots. *)
Theorem guidelines_are_cut_at_300 `{DatabaseHelpers}
    (disease : pystr) (r : gmap pystr pyval) (v : pyval) :
  _get_general_health_advice disease = Returns r →
  r !! u "hướng_dẫn_chi_tiết" = Some v →
  (∃ n, py_len v = Returns n ∧ n ≤ 303)
  ∧ ∃ rules,
      get_disease_rules disease = Some rules
      ∧ ∀ s, dict_get rules (u "guidelines") PNone = PStr s →
          (length s ≤ 300 → v = PStr s)
          ∧ (300 < length s → v = PStr (take 300 s ++ u "...")).
Proof.
  intros Hr Hv.
  destruct (general_advice_guidelines _ _ _ Hr Hv) as (rules & Hrules & Ht).
  destruct (truncated_guidelines_are_short _ _ Ht) as (Hlen & Hshort & Hlong).
  split; [exact Hlen|]. exists rules. split; [exact Hrules|].
  intros s Hs. split; [by apply Hshort|by apply Hlong].
Qed.

Lemma guidelines_are_cut_at_300_witness :
  ∃ n, py_len (PStr (u "Ăn ít đường, nhiều chất xơ. Chia nhỏ bữa ăn."))
       = Returns n ∧ n ≤ 303.
Proof.
  apply (@guidelines_are_cut_at_300 sample_database (canonical_name Diabetes)
           (match _get_general_health_advice (H := sample_database)
                    (canonical_name Diabetes) with
            | Returns r => r
            | Raises => ∅
            end)
           (PStr (u "Ăn ít đường, nhiều chất xơ. Chia nhỏ bữa ăn."))).
  - vm_compute. reflexivity.
  - vm_compute. reflexivity.
Defined.
